(** * Betting probability calculator ([app.py]): a shallow embedding

    The script loads three probability tables and the historical matches,
    lets the user pick a league, a home team and an away team together with
    three weights, blends the three probabilities with the normalised weights
    and prints a recommendation and the head-to-head rows.

    Python's [float] is IEEE 754 binary64; it is modelled by Rocq's primitive
    floats, which are the same format with the same rounding.  The blend is
    written once over a small arithmetic interface, so that the very same
    definition can also be read in exact rational arithmetic.  Strings are
    byte strings (UTF-8), whose lexicographic order is Python's order on
    [str].  A Streamlit run is a function of the files and of the widget
    values; it yields an outcome and the list of calls made to the UI. *)

From Stdlib Require Import Floats QArith Qfield Lqa Psatz.
From stdpp Require Import gmap strings list sorting.

Set Warnings "-inexact-float".

(** ** Exceptions and results *)

Inductive exn : Type :=
  | FileNotFoundError (path : string)
  | KeyError (key : option string)
  | ZeroDivisionError
  | StopException.

Inductive result (A : Type) : Type :=
  | Ok (a : A)
  | Raise (e : exn).
Arguments Ok {A} a.
Arguments Raise {A} e.

#[export] Instance result_ret : MRet result := λ A a, Ok a.
#[export] Instance result_bind : MBind result := λ A B f m,
  match m with
  | Ok a => f a
  | Raise e => Raise e
  end.

(** ** Arithmetic of [float] values

    [a + b], [a * b] and [a / b] as Python evaluates them.  True division
    raises [ZeroDivisionError] when the divisor compares equal to zero. *)

Class Arith (F : Type) : Type := {
  add : F → F → F;
  mul : F → F → F;
  truediv : F → F → result F
}.

(** binary64, as the interpreter computes. *)
#[export] Instance binary64 : Arith float := {
  add := PrimFloat.add;
  mul := PrimFloat.mul;
  truediv x y := if PrimFloat.eqb y 0%float then Raise ZeroDivisionError
                 else Ok (PrimFloat.div x y)
}.

(** Exact rationals: the same operations without rounding. *)
#[export] Instance exact : Arith Q := {
  add := Qplus;
  mul := Qmult;
  truediv x y := if Qeq_bool y 0 then Raise ZeroDivisionError
                 else Ok (Qdiv x y)
}.

(** Comparisons of floats: [x >= y] and [x <= y] (false on NaN). *)
Definition fge (x y : float) : bool := PrimFloat.leb y x.
Definition fle (x y : float) : bool := PrimFloat.leb x y.
Definition flt (x y : float) : bool := PrimFloat.ltb x y.

(** ** [get_probability_color] *)

Definition get_probability_color (prob : float) : string :=
  if fge prob 0.6%float then "high-probability"
  else if fge prob 0.45%float then "medium-probability"
  else "low-probability".

(** ** Data model *)

(** A row of a probability table, and a table indexed by its first column
    ([index_col=0]).  The index is taken to be unique: one row per league or
    team, as the upstream notebook writes them. *)
Record ProbRow : Type := {
  probability : float;
  reliability : string;
  total_games : Z
}.

Abbreviation ProbTable := (gmap string ProbRow).

(** A row of [clean_data_bet.csv]; [other_columns] stands for the result
    columns the script only displays. *)
Record Match : Type := {
  league : string;
  home_team : string;
  guest_team : string;
  other_columns : list string
}.

#[export] Instance Match_eq_dec : EqDecision Match.
Proof. solve_decision. Defined.

(** The four input files; [None] is a file that does not exist. *)
Record Files : Type := {
  league_probabilities_csv : option ProbTable;
  home_team_probabilities_csv : option ProbTable;
  guest_team_probabilities_csv : option ProbTable;
  clean_data_bet_csv : option (list Match)
}.

(** [pd.read_csv path]. *)
Definition read_csv {A} (path : string) (file : option A) : result A :=
  match file with
  | Some contents => Ok contents
  | None => Raise (FileNotFoundError path)
  end.

(** [load_data] *)
Definition load_data (fs : Files)
  : result (ProbTable * ProbTable * ProbTable * list Match) :=
  league_probs ← read_csv "league_probabilities.csv" (league_probabilities_csv fs);
  home_probs ← read_csv "home_team_probabilities.csv" (home_team_probabilities_csv fs);
  guest_probs ← read_csv "guest_team_probabilities.csv" (guest_team_probabilities_csv fs);
  historical_data ← read_csv "clean_data_bet.csv" (clean_data_bet_csv fs);
  mret (league_probs, home_probs, guest_probs, historical_data).

(** [table.loc[key, column]]: the row of [key], or [KeyError]. *)
Definition loc {A} (table : ProbTable) (key : option string)
    (column : ProbRow → A) : result A :=
  match key ≫= (table !!.) with
  | Some row => Ok (column row)
  | None => Raise (KeyError key)
  end.

(** ** The blend (lines 107-111 of [main]) *)

Section Blend.
Context {F : Type} `{Arith F}.

(** [weights]: the three weights divided by their total. *)
Definition weights (league_weight home_weight away_weight : F)
  : result (F * F * F) :=
  let total_weight := add (add league_weight home_weight) away_weight in
  w0 ← truediv league_weight total_weight;
  w1 ← truediv home_weight total_weight;
  w2 ← truediv away_weight total_weight;
  mret (w0, w1, w2).

(** [combined_prob]: the weighted sum. *)
Definition combined_prob (league_p home_p away_p : F) (ws : F * F * F) : F :=
  let '(w0, w1, w2) := ws in
  add (add (mul league_p w0) (mul home_p w1)) (mul away_p w2).

(** Normalisation followed by the weighted sum. *)
Definition blend (league_p home_p away_p : F)
    (league_weight home_weight away_weight : F) : result F :=
  ws ← weights league_weight home_weight away_weight;
  mret (combined_prob league_p home_p away_p ws).
End Blend.

(** ** Candidate teams (lines 67-69) and head-to-head rows (lines 168-171) *)

(** [sorted(s)] for a set of strings. *)
Definition sorted (s : gset string) : list string :=
  merge_sort String.le (elements s).

(** [historical_data[historical_data['league'] == selected_league]];
    [selected_league] is [None] when the league table is empty. *)
Definition league_teams (historical_data : list Match)
    (selected_league : option string) : list Match :=
  filter (λ m, Some (league m) = selected_league) historical_data.

Definition available_home_teams (historical_data : list Match)
    (selected_league : option string) (home_probs : ProbTable) : list string :=
  sorted (list_to_set (home_team <$> league_teams historical_data selected_league)
          ∩ dom home_probs).

Definition available_away_teams (historical_data : list Match)
    (selected_league : option string) (guest_probs : ProbTable) : list string :=
  sorted (list_to_set (guest_team <$> league_teams historical_data selected_league)
          ∩ dom guest_probs).

Definition head_to_head (historical_data : list Match)
    (selected_home selected_away : option string) : list Match :=
  filter (λ m, Some (home_team m) = selected_home
               ∧ Some (guest_team m) = selected_away) historical_data.

(** ** Streamlit: the calls a run makes, and the script monad *)

(** The bodies of the [st.markdown] calls of [main]; number formatting
    ([:.2%]) is left to the reader of the value. *)
Inductive markup : Type :=
  | md_rule
  | md_combined (css_class : string) (combined : float)
  | md_card (heading : string) (p : float) (reliability : string) (games : Z)
  | md_heading (text : string).

(** Calls to the UI, in the order the script makes them.  A select box is
    recorded with its formatted options: the option and the probability its
    label shows. *)
Inductive call : Type :=
  | st_title (text : string)
  | st_subheader (text : string)
  | st_selectbox (label : string) (options : list (string * float))
  | st_sidebar_subheader (text : string)
  | st_sidebar_slider (label : string) (min_value max_value value : float)
  | st_markdown (body : markup)
  | st_success (text : string)
  | st_error (text : string)
  | st_warning (text : string)
  | st_info (text : string)
  | st_dataframe (rows : list Match).

(** A script threads the calls made so far and may raise. *)
Definition Script (A : Type) : Type := list call → result A * list call.

#[export] Instance Script_ret : MRet Script := λ A a log, (Ok a, log).
#[export] Instance Script_bind : MBind Script := λ A B f m log,
  match m log with
  | (Ok a, log') => f a log'
  | (Raise e, log') => (Raise e, log')
  end.

Definition emit (c : call) : Script unit := λ log, (Ok tt, log ++ [c]).
Definition lift {A} (r : result A) : Script A := λ log, (r, log).
Definition raise {A} (e : exn) : Script A := lift (Raise e).

(** [try: body except ...: handler]; the handler re-raises what it does not
    catch. *)
Definition try_except {A} (body : Script A) (handler : exn → Script A)
  : Script A := λ log,
  match body log with
  | (Ok a, log') => (Ok a, log')
  | (Raise e, log') => handler e log'
  end.

(** [st.stop()] ends the run by raising [StopException], which the script
    runner absorbs. *)
Definition st_stop {A} : Script A := raise StopException.

(** The values the widgets hand to the script: the position chosen in each
    select box and the three slider values. *)
Record Widgets : Type := {
  choose_league : nat;
  choose_home : nat;
  choose_away : nat;
  slide_league : float;
  slide_home : float;
  slide_away : float
}.

(** [lambda x: f"{x} (Prob: {table.loc[x, 'probability']:.2f})"] *)
Definition format_func (table : ProbTable) (x : string)
  : result (string * float) :=
  p ← loc table (Some x) probability;
  mret (x, p).

(** The option a select box returns: the one at the chosen position, the
    first one when the position is out of range, [None] when the box has no
    option. *)
Definition chosen (options : list string) (choice : nat) : option string :=
  match options !! choice with
  | Some x => Some x
  | None => head options
  end.

(** [st.selectbox(label, options, format_func)]: every option is formatted,
    then the chosen option is returned. *)
Definition selectbox (label : string) (options : list string)
    (format : string → result (string * float)) (choice : nat)
  : Script (option string) :=
  shown ← lift (mapM format options);
  emit (st_selectbox label shown);;
  mret (chosen options choice).

(** [st.sidebar.slider(label, min_value, max_value, value)] *)
Definition slider (label : string) (min_value max_value value : float)
    (widget : float) : Script float :=
  emit (st_sidebar_slider label min_value max_value value);;
  mret widget.

(** ** The recommendation (lines 156-164) *)

Definition all_high (reliabilities : list string) : bool :=
  forallb (λ x, bool_decide (x ∈ ["High"; "Very High"])) reliabilities.

Definition strong_text : string := "Strong Betting Opportunity ✅".
Definition high_risk_text : string := "High Risk - Consider Avoiding ⚠️".
Definition moderate_text : string :=
  "Moderate Probability - Proceed with Caution ⚠️".

(** The list of reliabilities is only built when [combined_prob >= 0.6]. *)
Definition recommendation (combined : float)
    (reliabilities : result (list string)) : result call :=
  strong ← (if fge combined 0.6%float
            then rs ← reliabilities; mret (all_high rs)
            else mret false);
  mret (if strong : bool then st_success strong_text
        else if fle combined 0.4%float then st_error high_risk_text
        else st_warning moderate_text).

(** ** [main]

    The calls are recorded in the order the script makes them.  Layout
    ([st.columns], [with col:]) only places the widgets and is not recorded,
    and [st.cache_data] is read as a plain call of [load_data]. *)

Definition missing_files_text : string :=
  "Please run the data processing notebook first to generate the required files.".

(** One of the three cards of the detailed analysis. *)
Definition card (heading : string) (table : ProbTable) (key : option string)
    (p : float) : result markup :=
  r ← loc table key reliability;
  g ← loc table key total_games;
  mret (md_card heading p r g).

Definition main (fs : Files) (ui : Widgets) : Script unit :=
  emit (st_title "🎲 Betting Probability Calculator");;
  '(league_probs, home_probs, guest_probs, historical_data) ←
    try_except (lift (load_data fs)) (λ e,
      match e with
      | FileNotFoundError _ => emit (st_error missing_files_text);; st_stop
      | _ => raise e
      end);
  emit (st_subheader "League Selection");;
  selected_league ←
    selectbox "Choose League" (sorted (dom league_probs))
      (format_func league_probs) (choose_league ui);
  let available_home :=
    available_home_teams historical_data selected_league home_probs in
  let available_away :=
    available_away_teams historical_data selected_league guest_probs in
  emit (st_subheader "Home Team");;
  selected_home ←
    (if bool_decide (available_home ≠ [])
     then selectbox "Choose Home Team" available_home
            (format_func home_probs) (choose_home ui)
     else emit (st_warning "No home teams available for this league");;
          st_stop);
  emit (st_subheader "Away Team");;
  selected_away ←
    (if bool_decide (available_away ≠ [])
     then selectbox "Choose Away Team" available_away
            (format_func guest_probs) (choose_away ui)
     else emit (st_warning "No away teams available for this league");;
          st_stop);
  league_p ← lift (loc league_probs selected_league probability);
  home_p ← lift (loc home_probs selected_home probability);
  away_p ← lift (loc guest_probs selected_away probability);
  emit (st_sidebar_subheader "Probability Weights");;
  league_weight ← slider "League Weight" 0.0 1.0 0.4 (slide_league ui);
  home_weight ← slider "Home Team Weight" 0.0 1.0 0.3 (slide_home ui);
  away_weight ← slider "Away Team Weight" 0.0 1.0 0.3 (slide_away ui);
  ws ← lift (weights league_weight home_weight away_weight);
  let combined := combined_prob league_p home_p away_p ws in
  emit (st_markdown md_rule);;
  emit (st_markdown (md_combined (get_probability_color combined) combined));;
  c1 ← lift (card "League Analysis" league_probs selected_league league_p);
  emit (st_markdown c1);;
  c2 ← lift (card "Home Team Analysis" home_probs selected_home home_p);
  emit (st_markdown c2);;
  c3 ← lift (card "Away Team Analysis" guest_probs selected_away away_p);
  emit (st_markdown c3);;
  emit (st_markdown (md_heading "Betting Recommendation"));;
  advice ← lift (recommendation combined (
    r1 ← loc league_probs selected_league reliability;
    r2 ← loc home_probs selected_home reliability;
    r3 ← loc guest_probs selected_away reliability;
    mret [r1; r2; r3]));
  emit advice;;
  emit (st_markdown (md_heading "Historical Performance"));;
  let rows := head_to_head historical_data selected_home selected_away in
  if bool_decide (rows ≠ []) then emit (st_dataframe rows)
  else emit (st_info "No historical matches found between these teams").

(** A run starts with no call made. *)
Definition run (fs : Files) (ui : Widgets) : result unit * list call :=
  main fs ui [].

(** ** Vocabulary of the properties *)

(** A reliability label that counts as high. *)
Definition reliable (r : string) : Prop := r = "High" ∨ r = "Very High".

(** A binary64 value in [[0, 1]], and one that is [>= 0]. *)
Definition in_unit (x : float) : Prop := fle 0 x = true ∧ fle x 1 = true.
Definition non_negative (x : float) : Prop := fle 0 x = true.

(** [l] lists the strings that satisfy [P] in ascending order, each once:
    what [sorted] returns for a set. *)
Definition sorted_listing (l : list string) (P : string → Prop) : Prop :=
  StronglySorted String.le l ∧ NoDup l ∧ ∀ t, t ∈ l ↔ P t.

(** The teams that played at home, or as guest, in a league. *)
Definition played_home (historical_data : list Match)
    (selected_league : option string) (t : string) : Prop :=
  ∃ m, m ∈ historical_data ∧ Some (league m) = selected_league
       ∧ home_team m = t.
Definition played_guest (historical_data : list Match)
    (selected_league : option string) (t : string) : Prop :=
  ∃ m, m ∈ historical_data ∧ Some (league m) = selected_league
       ∧ guest_team m = t.

(** The formatted options of a select box over [table]: each option with
    the probability of its row. *)
Definition labels (table : ProbTable) (options : list string)
  : list (string * float) :=
  omap (λ x, (λ row, (x, probability row)) <$> table !! x) options.

(** The calls of a run that goes through, given the candidates, the rows
    of the three selections, the combined probability, the recommendation
    and the head-to-head rows. *)
Definition report (league_probs home_probs guest_probs : ProbTable)
    (homes aways : list string) (lrow hrow arow : ProbRow)
    (combined : float) (advice : call) (rows : list Match) : list call :=
  [st_title "🎲 Betting Probability Calculator";
   st_subheader "League Selection";
   st_selectbox "Choose League"
     (labels league_probs (sorted (dom league_probs)));
   st_subheader "Home Team";
   st_selectbox "Choose Home Team" (labels home_probs homes);
   st_subheader "Away Team";
   st_selectbox "Choose Away Team" (labels guest_probs aways);
   st_sidebar_subheader "Probability Weights";
   st_sidebar_slider "League Weight" 0.0 1.0 0.4;
   st_sidebar_slider "Home Team Weight" 0.0 1.0 0.3;
   st_sidebar_slider "Away Team Weight" 0.0 1.0 0.3;
   st_markdown md_rule;
   st_markdown (md_combined (get_probability_color combined) combined);
   st_markdown (md_card "League Analysis" (probability lrow)
                  (reliability lrow) (total_games lrow));
   st_markdown (md_card "Home Team Analysis" (probability hrow)
                  (reliability hrow) (total_games hrow));
   st_markdown (md_card "Away Team Analysis" (probability arow)
                  (reliability arow) (total_games arow));
   st_markdown (md_heading "Betting Recommendation");
   advice;
   st_markdown (md_heading "Historical Performance");
   if bool_decide (rows ≠ []) then st_dataframe rows
   else st_info "No historical matches found between these teams"].

(** A binary64 value that is not below zero: a zero, a positive value or
    a NaN. *)
Definition not_negative (x : float) : Prop := flt x 0 = false.

(** ** A small data set

    Two leagues; Lakers met Celtics once in each. *)

Definition sample_row (p : float) (r : string) (g : Z) : ProbRow :=
  {| probability := p; reliability := r; total_games := g |}.

Definition sample_match (l h g : string) : Match :=
  {| league := l; home_team := h; guest_team := g; other_columns := [] |}.

Definition sample_league_probs : ProbTable :=
  {[ "NBA" := sample_row 0.7 "High" 100; "ACB" := sample_row 0.4 "Low" 10 ]}.
Definition sample_home_probs : ProbTable :=
  {[ "Lakers" := sample_row 0.65 "High" 100;
     "Bulls" := sample_row 0.4 "Low" 10 ]}.
Definition sample_guest_probs : ProbTable :=
  {[ "Celtics" := sample_row 0.55 "Very High" 100 ]}.
Definition sample_history : list Match :=
  [sample_match "NBA" "Lakers" "Celtics"; sample_match "NBA" "Bulls" "Celtics";
   sample_match "ACB" "Lakers" "Celtics"; sample_match "ACB" "Madrid" "Barca"].

Definition sample_files : Files :=
  {| league_probabilities_csv := Some sample_league_probs;
     home_team_probabilities_csv := Some sample_home_probs;
     guest_team_probabilities_csv := Some sample_guest_probs;
     clean_data_bet_csv := Some sample_history |}.

(** NBA, Lakers, Celtics, and the default weights. *)
Definition sample_widgets : Widgets :=
  {| choose_league := 1; choose_home := 1; choose_away := 0;
     slide_league := 0.4; slide_home := 0.3; slide_away := 0.3 |}.

(** * Properties *)

(** ** The order of binary64

    [PrimFloat.leb], [ltb] and [eqb] are specified by [SFcompare] on the
    decoded float; the facts below are what the thresholds of the script
    need: comparisons are antisymmetric and transitive, and a comparison that
    holds involves no NaN. *)

Section FloatOrder.
Implicit Types a b c : spec_float.
Implicit Types x y z : float.

Lemma SFcompare_antisym a b :
  SFcompare b a = CompOpp <$> SFcompare a b.
Proof.
  destruct a as [[]|[]| |[] ma ea], b as [[]|[]| |[] mb eb]; simpl;
    try reflexivity.
  all: change (PosDef.Pos.compare_cont Eq ?p ?q) with (Pos.compare p q).
  all: rewrite (Z.compare_antisym ea eb), (Pos.compare_antisym ma mb).
  all: destruct (ea ?= eb)%Z, (ma ?= mb)%positive; reflexivity.
Qed.

Lemma SFcompare_refl a : a ≠ S754_nan → SFcompare a a = Some Eq.
Proof.
  destruct a as [[]|[]| |[] ma ea]; simpl; intros ?; try done.
  all: change (PosDef.Pos.compare_cont Eq ?p ?q) with (Pos.compare p q).
  all: by rewrite Z.compare_refl, Pos.compare_refl.
Qed.

Lemma SFcompare_Some a b o :
  SFcompare a b = Some o → a ≠ S754_nan ∧ b ≠ S754_nan.
Proof. destruct a as [| |  |], b as [| | |]; simpl; by intros ?. Qed.

Lemma SFleb_trans a b c :
  SFleb a b = true → SFleb b c = true → SFleb a c = true.
Proof.
  unfold SFleb.
  destruct a as [[]|[]| |[] ma ea], b as [[]|[]| |[] mb eb],
           c as [[]|[]| |[] mc ec]; simpl; try done.
  all: change (PosDef.Pos.compare_cont Eq ?p ?q) with (Pos.compare p q).
  all: destruct (Z.compare_spec ea eb), (Z.compare_spec eb ec),
         (Z.compare_spec ea ec); simpl; try done; try lia.
  all: destruct (Pos.compare_spec ma mb), (Pos.compare_spec mb mc),
         (Pos.compare_spec ma mc); simpl; try done; try lia.
Qed.

Lemma leb_trans x y z :
  PrimFloat.leb x y = true → PrimFloat.leb y z = true →
  PrimFloat.leb x z = true.
Proof. rewrite !FloatAxioms.leb_spec. apply SFleb_trans. Qed.

(** Both operands of a comparison that holds compare equal to
    themselves. *)
Lemma leb_true_refl x y :
  PrimFloat.leb x y = true →
  PrimFloat.leb x x = true ∧ PrimFloat.leb y y = true.
Proof.
  rewrite !FloatAxioms.leb_spec. unfold SFleb.
  destruct (SFcompare (Prim2SF x) (Prim2SF y)) as [o|] eqn:E; [|done].
  apply SFcompare_Some in E as [Hx Hy].
  by rewrite (SFcompare_refl _ Hx), (SFcompare_refl _ Hy).
Qed.

(** Away from NaN, [x < y] is the negation of [y <= x]. *)
Lemma ltb_negb_leb x y :
  PrimFloat.leb x x = true → PrimFloat.leb y y = true →
  PrimFloat.ltb x y = negb (PrimFloat.leb y x).
Proof.
  rewrite FloatAxioms.ltb_spec, !FloatAxioms.leb_spec. unfold SFltb, SFleb. intros Hx Hy.
  rewrite (SFcompare_antisym (Prim2SF x) (Prim2SF y)).
  destruct (SFcompare (Prim2SF x) (Prim2SF y)) as [[]|] eqn:E; try done.
  destruct (Prim2SF x) as [| | |], (Prim2SF y) as [| | |]; done.
Qed.

(** A float above zero does not compare equal to zero. *)
Lemma ltb_0_neq x : PrimFloat.ltb 0 x = true → PrimFloat.eqb x 0 = false.
Proof.
  rewrite FloatAxioms.ltb_spec, FloatAxioms.eqb_spec. unfold SFltb, SFeqb.
  rewrite (SFcompare_antisym (Prim2SF 0) (Prim2SF x)).
  by destruct (SFcompare (Prim2SF 0) (Prim2SF x)) as [[]|].
Qed.
End FloatOrder.

(** ** Display colour *)

(** C4: the colour class is "high" exactly when the value is [>= 0.6],
    "medium" exactly when it is [>= 0.45] and [< 0.6], and "low" otherwise
    (exactly when it is not [>= 0.45], which for a probability, a value
    [>= 0], is [< 0.45]).  The three conditions exclude one another and one
    of them holds, so every value has exactly one tier. *)
Theorem get_probability_color_tiers (prob : float) :
  (get_probability_color prob = "high-probability" ↔ fge prob 0.6 = true) ∧
  (get_probability_color prob = "medium-probability" ↔
     fge prob 0.45 = true ∧ flt prob 0.6 = true) ∧
  (get_probability_color prob = "low-probability" ↔ fge prob 0.45 = false) ∧
  (fle 0 prob = true →
     (fge prob 0.45 = false ↔ flt prob 0.45 = true)).
Proof.
  unfold get_probability_color, fge, fle, flt.
  assert (H66 : PrimFloat.leb 0.6 0.6 = true) by (vm_compute; reflexivity).
  assert (H44 : PrimFloat.leb 0.45 0.45 = true) by (vm_compute; reflexivity).
  assert (H46 : PrimFloat.leb 0.45 0.6 = true) by (vm_compute; reflexivity).
  split; [|split; [|split]].
  - destruct (PrimFloat.leb 0.6 prob); [done|].
    by destruct (PrimFloat.leb 0.45 prob).
  - destruct (PrimFloat.leb 0.45 prob) eqn:E45.
    + destruct (leb_true_refl 0.45 prob E45) as [_ Hp].
      rewrite (ltb_negb_leb prob 0.6 Hp H66).
      destruct (PrimFloat.leb 0.6 prob); [|done].
      split; [done|by intros [_ ?]].
    + destruct (PrimFloat.leb 0.6 prob); (split; [done|by intros [? _]]).
  - destruct (PrimFloat.leb 0.6 prob) eqn:E6.
    + by rewrite (leb_trans 0.45 0.6 prob H46 E6).
    + by destruct (PrimFloat.leb 0.45 prob).
  - intros H0. destruct (leb_true_refl 0 prob H0) as [_ Hp].
    rewrite (ltb_negb_leb prob 0.45 Hp H44).
    by destruct (PrimFloat.leb 0.45 prob).
Qed.

(** ** Recommendation *)

Lemma all_high_spec (r1 r2 r3 : string) :
  all_high [r1; r2; r3] = true ↔ reliable r1 ∧ reliable r2 ∧ reliable r3.
Proof.
  unfold all_high, reliable. simpl.
  rewrite !andb_true_iff, !bool_decide_eq_true, !elem_of_cons, !elem_of_nil.
  tauto.
Qed.

(** With the labels at hand, the two tests decide the message. *)
Lemma recommendation_Ok (combined : float) (rs : list string) :
  recommendation combined (Ok rs) =
  Ok (if fge combined 0.6 && all_high rs then st_success strong_text
      else if fle combined 0.4 then st_error high_risk_text
      else st_warning moderate_text).
Proof. unfold recommendation. by destruct (fge combined 0.6). Qed.

(** C1: the recommendation follows the three rules in priority order.  It is
    "Strong Betting Opportunity" exactly when [combined >= 0.6] and the three
    labels are High or Very High; otherwise "High Risk" exactly when
    [combined <= 0.4]; otherwise "Moderate".  The second rule never overlaps
    the first, [0.4] itself is High Risk whatever the labels, and [0.6] with a
    label that is not high is Moderate. *)
Theorem recommendation_priority (combined : float) (r1 r2 r3 : string) :
  ∃ advice,
    recommendation combined (Ok [r1; r2; r3]) = Ok advice ∧
    (advice = st_success strong_text ↔
       fge combined 0.6 = true ∧ reliable r1 ∧ reliable r2 ∧ reliable r3) ∧
    (advice = st_error high_risk_text ↔
       ¬ (fge combined 0.6 = true ∧ reliable r1 ∧ reliable r2 ∧ reliable r3)
       ∧ fle combined 0.4 = true) ∧
    (advice = st_warning moderate_text ↔
       ¬ (fge combined 0.6 = true ∧ reliable r1 ∧ reliable r2 ∧ reliable r3)
       ∧ fle combined 0.4 = false) ∧
    (fle combined 0.4 = true → fge combined 0.6 = false) ∧
    recommendation 0.4 (Ok [r1; r2; r3]) = Ok (st_error high_risk_text) ∧
    (¬ (reliable r1 ∧ reliable r2 ∧ reliable r3) →
       recommendation 0.6 (Ok [r1; r2; r3]) = Ok (st_warning moderate_text)).
Proof.
  pose proof (all_high_spec r1 r2 r3) as Hall.
  assert (Hexcl : fle combined 0.4 = true → fge combined 0.6 = false).
  { unfold fle, fge. intros H4.
    destruct (PrimFloat.leb 0.6 combined) eqn:H6; [|done].
    by pose proof (leb_trans 0.6 combined 0.4 H6 H4). }
  rewrite !recommendation_Ok.
  change (fge 0.4 0.6) with false. change (fle 0.4 0.4) with true.
  change (fge 0.6 0.6) with true. change (fle 0.6 0.4) with false.
  eexists; split; [reflexivity|].
  destruct (fge combined 0.6) eqn:E6, (all_high [r1; r2; r3]) eqn:Eh,
    (fle combined 0.4) eqn:E4; cbn [andb];
    try (by specialize (Hexcl eq_refl)).
  all: destruct Hall as [Hall1 Hall2].
  all: intuition (try discriminate; try done).
Qed.

(** ** The blend *)

(** In binary64 the normalised weights need not sum to one, and the blend of
    three probabilities equal to [1.0] can come out above [1.0]. *)
Example blend_rounding_example :
  (weights 0.1 0.4 0.1
   = Ok (0.16666666666666669, 0.66666666666666674, 0.16666666666666669)
   ∧ blend 1 1 1 0.1 0.4 0.1 = Ok 1.0000000000000002)%float.
Proof. by vm_compute. Qed.

(** C2, as stated, fails in binary64: with the three probabilities [1.0] and
    the slider weights [0.1], [0.4], [0.1] the combined probability is
    [1.0000000000000002], which is above one. *)
Lemma blend_in_unit_binary64_counterexample :
  ¬ (∀ p1 p2 p3 w1 w2 w3 : float,
       in_unit p1 → in_unit p2 → in_unit p3 →
       non_negative w1 → non_negative w2 → non_negative w3 →
       flt 0 (w1 + w2 + w3) = true →
       ∃ combined, blend p1 p2 p3 w1 w2 w3 = Ok combined ∧ in_unit combined).
Proof.
  intros H.
  destruct (H 1 1 1 0.1 0.4 0.1)%float as (c & Hc & _ & Hle);
    try (by vm_compute).
  vm_compute in Hc. injection Hc as <-. by vm_compute in Hle.
Qed.

(** In exact arithmetic a positive total is not zero, so normalisation
    returns the three quotients. *)
Lemma weights_exact (a b c : Q) :
  (0 < a + b + c)%Q →
  weights a b c = Ok (a / (a + b + c), b / (a + b + c), c / (a + b + c))%Q.
Proof.
  intros Ht. unfold weights. cbn.
  destruct (Qeq_bool (a + b + c) 0) eqn:E; [|done].
  apply Qeq_bool_eq in E. lra.
Qed.

(** The exact normalised weights are non-negative and sum to one. *)
Lemma weights_exact_convex (a b c : Q) :
  (0 <= a)%Q → (0 <= b)%Q → (0 <= c)%Q → (0 < a + b + c)%Q →
  (0 <= a / (a + b + c) ∧ 0 <= b / (a + b + c) ∧ 0 <= c / (a + b + c)
   ∧ a / (a + b + c) + b / (a + b + c) + c / (a + b + c) == 1)%Q.
Proof.
  intros Ha Hb Hc Ht.
  repeat split; try (apply Qle_shift_div_l; [done|lra]).
  field. lra.
Qed.

(** C2, amended: read in exact rational arithmetic, the blend of three
    probabilities in [[0, 1]] with non-negative weights of positive total
    returns a value, and the value lies in [[0, 1]]. *)
Theorem blend_exact_in_unit (p1 p2 p3 w1 w2 w3 : Q) :
  (0 <= p1 <= 1)%Q → (0 <= p2 <= 1)%Q → (0 <= p3 <= 1)%Q →
  (0 <= w1)%Q → (0 <= w2)%Q → (0 <= w3)%Q → (0 < w1 + w2 + w3)%Q →
  ∃ combined, blend p1 p2 p3 w1 w2 w3 = Ok combined ∧ (0 <= combined <= 1)%Q.
Proof.
  intros Hp1 Hp2 Hp3 Hw1 Hw2 Hw3 Ht.
  unfold blend. rewrite (weights_exact _ _ _ Ht). cbn.
  eexists; split; [reflexivity|].
  destruct (weights_exact_convex _ _ _ Hw1 Hw2 Hw3 Ht) as (H1 & H2 & H3 & Hs).
  set (x1 := (w1 / (w1 + w2 + w3))%Q) in *.
  set (x2 := (w2 / (w1 + w2 + w3))%Q) in *.
  set (x3 := (w3 / (w1 + w2 + w3))%Q) in *.
  nra.
Qed.

Lemma blend_exact_in_unit_witness :
  ∃ combined, blend (7 # 10) (65 # 100) (55 # 100) (4 # 10) (3 # 10) (3 # 10)
              = Ok combined ∧ (0 <= combined <= 1)%Q.
Proof.
  apply (blend_exact_in_unit (7 # 10) (65 # 100) (55 # 100)
           (4 # 10) (3 # 10) (3 # 10)); by vm_compute.
Defined.

(** In binary64 a total that compares equal to zero makes the first division
    raise, and a total above zero lets the three divisions through. *)
Lemma weights_binary64_zero (a b c : float) :
  PrimFloat.eqb (a + b + c) 0 = true →
  weights a b c = Raise ZeroDivisionError.
Proof. intros Ht. unfold weights. cbn. by rewrite Ht. Qed.

Lemma weights_binary64_positive (a b c : float) :
  flt 0 (a + b + c) = true →
  weights a b c = Ok (a / (a + b + c), b / (a + b + c), c / (a + b + c))%float.
Proof.
  intros Ht%ltb_0_neq. unfold weights. cbn. by rewrite Ht.
Qed.

(** ** Scaling the weights *)

(** The weights [(1.0, 1.0, 1.0)] scaled by [0.3] are exactly
    [(0.3, 0.3, 0.3)], and the two blends differ in the last place. *)
Example blend_scaling_example :
  (0.3 * 1 = 0.3
   ∧ blend 0.7 0.65 0.55 1 1 1 = Ok 0.6333333333333333
   ∧ blend 0.7 0.65 0.55 0.3 0.3 0.3 = Ok 0.6333333333333334)%float.
Proof. by vm_compute. Qed.

(** C5, as stated, fails in binary64: the weights [(1.0, 1.0, 1.0)] and the
    same weights scaled by [k = 0.3], which are exactly [(0.3, 0.3, 0.3)],
    blend the probabilities [0.7], [0.65], [0.55] to
    [0.6333333333333333] and to [0.6333333333333334]. *)
Lemma blend_scaling_binary64_counterexample :
  ¬ (∀ p1 p2 p3 a b c k : float,
       in_unit p1 → in_unit p2 → in_unit p3 →
       non_negative a → non_negative b → non_negative c →
       flt 0 (a + b + c) = true → flt 0 k = true →
       (blend p1 p2 p3 (k * a) (k * b) (k * c) = blend p1 p2 p3 a b c)%float).
Proof.
  intros H.
  specialize (H 0.7 0.65 0.55 1 1 1 0.3)%float.
  vm_compute in H. by repeat (specialize (H (conj eq_refl eq_refl))
                              || specialize (H eq_refl)).
Qed.

(** C5, amended: read in exact rational arithmetic, scaling the three
    weights by any [k > 0] leaves the blend unchanged: both blends return a
    value and the two values are equal. *)
Theorem blend_exact_scaling (p1 p2 p3 a b c k : Q) :
  (0 <= a)%Q → (0 <= b)%Q → (0 <= c)%Q → (0 < a + b + c)%Q → (0 < k)%Q →
  ∃ x y, (blend p1 p2 p3 (k * a) (k * b) (k * c))%Q = Ok x
         ∧ blend p1 p2 p3 a b c = Ok y
         ∧ (x == y)%Q.
Proof.
  intros Ha Hb Hc Ht Hk.
  assert (Hkt : (0 < k * a + k * b + k * c)%Q) by nra.
  unfold blend. rewrite (weights_exact _ _ _ Ht), (weights_exact _ _ _ Hkt).
  do 2 eexists; split; [reflexivity|]; split; [reflexivity|].
  cbn. field. split; lra.
Qed.

Lemma blend_exact_scaling_witness :
  ∃ x y, (blend (7 # 10) (65 # 100) (55 # 100) ((3 # 10) * 1) ((3 # 10) * 1)
            ((3 # 10) * 1))%Q = Ok x
         ∧ (blend (7 # 10) (65 # 100) (55 # 100) 1 1 1)%Q = Ok y
         ∧ (x == y)%Q.
Proof.
  apply (blend_exact_scaling (7 # 10) (65 # 100) (55 # 100) 1 1 1 (3 # 10));
    by vm_compute.
Defined.

(** ** Candidate teams *)

Lemma sorted_listing_unique (l1 l2 : list string) (P : string → Prop) :
  sorted_listing l1 P → sorted_listing l2 P → l1 = l2.
Proof.
  intros (Hs1 & Hn1 & H1) (Hs2 & Hn2 & H2).
  apply (StronglySorted_unique String.le); [done..|].
  apply NoDup_Permutation; [done..|]. intros t. by rewrite H1, H2.
Qed.

Lemma sorted_spec (s : gset string) : sorted_listing (sorted s) (.∈ s).
Proof.
  unfold sorted. split; [|split].
  - apply (StronglySorted_merge_sort String.le).
  - rewrite merge_sort_Permutation. apply NoDup_elements.
  - intros t. by rewrite merge_sort_Permutation, elem_of_elements.
Qed.

Lemma elem_of_sorted (s : gset string) (t : string) : t ∈ sorted s ↔ t ∈ s.
Proof. apply sorted_spec. Qed.

Lemma elem_of_league_teams historical_data selected_league (m : Match) :
  m ∈ league_teams historical_data selected_league
  ↔ m ∈ historical_data ∧ Some (league m) = selected_league.
Proof. unfold league_teams. rewrite list_elem_of_filter. tauto. Qed.

Lemma elem_of_available_home_teams historical_data selected_league
    (home_probs : ProbTable) (t : string) :
  t ∈ available_home_teams historical_data selected_league home_probs
  ↔ played_home historical_data selected_league t ∧ is_Some (home_probs !! t).
Proof.
  unfold available_home_teams, played_home.
  rewrite elem_of_sorted, elem_of_intersection, elem_of_list_to_set,
    list_elem_of_fmap, elem_of_dom.
  setoid_rewrite elem_of_league_teams. split.
  - intros [(m & -> & Hm & Hl) Hd]. split; [by exists m|done].
  - intros [(m & Hm & Hl & <-) Hd]. split; [by exists m|done].
Qed.

Lemma elem_of_available_away_teams historical_data selected_league
    (guest_probs : ProbTable) (t : string) :
  t ∈ available_away_teams historical_data selected_league guest_probs
  ↔ played_guest historical_data selected_league t
    ∧ is_Some (guest_probs !! t).
Proof.
  unfold available_away_teams, played_guest.
  rewrite elem_of_sorted, elem_of_intersection, elem_of_list_to_set,
    list_elem_of_fmap, elem_of_dom.
  setoid_rewrite elem_of_league_teams. split.
  - intros [(m & -> & Hm & Hl) Hd]. split; [by exists m|done].
  - intros [(m & Hm & Hl & <-) Hd]. split; [by exists m|done].
Qed.

(** C6: for every selected league the home candidates are the sorted
    intersection of the home teams of the rows of that league with the keys
    of the home-team table: the list is ascending, has no duplicate, and a
    team is in it exactly when it is a home team of some row of the league
    and a key of the table; the away candidates are the same over the guest
    teams and the guest-team table.  There is only one such list. *)
Theorem available_teams_sorted_intersection (historical_data : list Match)
    (selected_league : option string) (home_probs guest_probs : ProbTable) :
  let homes := λ t, played_home historical_data selected_league t
                    ∧ t ∈ dom home_probs in
  let aways := λ t, played_guest historical_data selected_league t
                    ∧ t ∈ dom guest_probs in
  sorted_listing
    (available_home_teams historical_data selected_league home_probs) homes
  ∧ sorted_listing
      (available_away_teams historical_data selected_league guest_probs) aways
  ∧ (∀ l, sorted_listing l homes →
          l = available_home_teams historical_data selected_league home_probs)
  ∧ (∀ l, sorted_listing l aways →
          l = available_away_teams historical_data selected_league guest_probs).
Proof.
  intros homes aways.
  assert (Hh : sorted_listing
    (available_home_teams historical_data selected_league home_probs) homes).
  { destruct (sorted_spec (list_to_set (home_team <$>
        league_teams historical_data selected_league) ∩ dom home_probs))
      as (Hs & Hn & _).
    split; [done|]. split; [done|]. intros t. unfold homes.
    by rewrite elem_of_available_home_teams, elem_of_dom. }
  assert (Ha : sorted_listing
    (available_away_teams historical_data selected_league guest_probs) aways).
  { destruct (sorted_spec (list_to_set (guest_team <$>
        league_teams historical_data selected_league) ∩ dom guest_probs))
      as (Hs & Hn & _).
    split; [done|]. split; [done|]. intros t. unfold aways.
    by rewrite elem_of_available_away_teams, elem_of_dom. }
  split; [done|]. split; [done|].
  split; intros l Hl; by eapply sorted_listing_unique.
Qed.

(** ** Lookups *)

(** C8: looking up the probability (or any column) of a key that the table
    does not hold raises [KeyError] for that key; no value is returned in its
    place. *)
Theorem loc_missing_key {A} (table : ProbTable) (key : string)
    (column : ProbRow → A) :
  table !! key = None →
  loc table (Some key) column = Raise (KeyError (Some key))
  ∧ ∀ v, loc table (Some key) column ≠ Ok v.
Proof. intros Hk. unfold loc. cbn. by rewrite Hk. Qed.

Lemma loc_missing_key_witness :
  let table : ProbTable :=
    {[ "NBA" := {| probability := 0.7; reliability := "High";
                   total_games := 120 |} ]} in
  loc table (Some "ACB") probability = Raise (KeyError (Some "ACB"))
  ∧ ∀ v, loc table (Some "ACB") probability ≠ Ok v.
Proof. intros table. apply (loc_missing_key table "ACB"). by vm_compute. Defined.

Lemma loc_present {A} (table : ProbTable) (key : string) (row : ProbRow)
    (column : ProbRow → A) :
  table !! key = Some row → loc table (Some key) column = Ok (column row).
Proof. intros Hk. unfold loc. cbn. by rewrite Hk. Qed.

(** ** Head-to-head rows *)

Lemma elem_of_head_to_head historical_data selected_home selected_away
    (m : Match) :
  m ∈ head_to_head historical_data (Some selected_home) (Some selected_away)
  ↔ m ∈ historical_data ∧ home_team m = selected_home
    ∧ guest_team m = selected_away.
Proof.
  unfold head_to_head. rewrite list_elem_of_filter. split.
  - by intros [[[= ->] [= ->]] ?].
  - by intros (? & -> & ->).
Qed.

(** ** Runs of [main] *)

(** C9: when any of the four input files is absent, the run shows the title,
    shows the message asking to run the data processing notebook first, and
    stops; nothing else of the render is computed. *)
Theorem missing_file_stops (fs : Files) (ui : Widgets) :
  league_probabilities_csv fs = None ∨ home_team_probabilities_csv fs = None
  ∨ guest_team_probabilities_csv fs = None ∨ clean_data_bet_csv fs = None →
  run fs ui
  = (Raise StopException,
     [st_title "🎲 Betting Probability Calculator";
      st_error missing_files_text]).
Proof.
  intros Hmissing.
  assert (∃ path, load_data fs = Raise (FileNotFoundError path)) as [path Hl].
  { unfold load_data.
    destruct (league_probabilities_csv fs), (home_team_probabilities_csv fs),
      (guest_team_probabilities_csv fs), (clean_data_bet_csv fs);
      cbn; eauto; by destruct Hmissing as [|[|[|]]]. }
  unfold run, main. rewrite Hl. reflexivity.
Qed.

Lemma missing_file_stops_witness :
  let fs := {| league_probabilities_csv := Some ∅;
               home_team_probabilities_csv := Some ∅;
               guest_team_probabilities_csv := None;
               clean_data_bet_csv := Some [] |} in
  let ui := {| choose_league := 0; choose_home := 0; choose_away := 0;
               slide_league := 0.4; slide_home := 0.3; slide_away := 0.3 |} in
  run fs ui
  = (Raise StopException,
     [st_title "🎲 Betting Probability Calculator";
      st_error missing_files_text]).
Proof. intros fs ui. apply (missing_file_stops fs ui). by vm_compute; auto. Defined.

(** Formatting the options of a select box cannot fail when every option
    is a key of the table. *)
Lemma mapM_format_func (table : ProbTable) (options : list string) :
  (∀ x, x ∈ options → is_Some (table !! x)) →
  mapM (format_func table) options = Ok (labels table options).
Proof.
  induction options as [|x options IH]; intros Hin; [done|].
  destruct (Hin x) as [row Hrow]; [left|].
  assert (Hx : format_func table x = Ok (x, probability row)).
  { unfold format_func. by rewrite (loc_present _ _ _ _ Hrow). }
  change (mapM (format_func table) (x :: options))
    with (y ← format_func table x;
          k ← mapM (format_func table) options; mret (y :: k)).
  rewrite Hx, IH by (intros y ?; apply Hin; by right).
  unfold labels. cbn. by rewrite Hrow.
Qed.

Lemma selectbox_run (label : string) (options : list string)
    (table : ProbTable) (choice : nat) (log : list call) :
  (∀ x, x ∈ options → is_Some (table !! x)) →
  selectbox label options (format_func table) choice log
  = (Ok (chosen options choice),
     log ++ [st_selectbox label (labels table options)]).
Proof.
  intros Hin. unfold selectbox. cbn. unfold lift.
  by rewrite (mapM_format_func _ _ Hin).
Qed.

Lemma chosen_elem (options : list string) (choice : nat) (x : string) :
  chosen options choice = Some x → x ∈ options.
Proof.
  unfold chosen. destruct (options !! choice) as [y|] eqn:E.
  - intros [= <-]. by eapply list_elem_of_lookup_2.
  - destruct options; [done|]. intros [= <-]. left.
Qed.

Lemma chosen_is_Some (options : list string) (choice : nat) :
  options ≠ [] → is_Some (chosen options choice).
Proof.
  unfold chosen. destruct (options !! choice); [eauto|].
  destruct options; [done|]. eauto.
Qed.

Lemma league_options_in_table (league_probs : ProbTable) (x : string) :
  x ∈ sorted (dom league_probs) → is_Some (league_probs !! x).
Proof. rewrite elem_of_sorted. apply elem_of_dom. Qed.

Lemma home_options_in_table historical_data selected_league
    (home_probs : ProbTable) (x : string) :
  x ∈ available_home_teams historical_data selected_league home_probs →
  is_Some (home_probs !! x).
Proof. rewrite elem_of_available_home_teams. tauto. Qed.

Lemma away_options_in_table historical_data selected_league
    (guest_probs : ProbTable) (x : string) :
  x ∈ available_away_teams historical_data selected_league guest_probs →
  is_Some (guest_probs !! x).
Proof. rewrite elem_of_available_away_teams. tauto. Qed.

(** Unfolds the script monad one step at a time, leaving the select boxes,
    the lookups and the blend folded. *)
Tactic Notation "step" :=
  unfold slider, mbind, Script_bind;
  cbn [mret Script_ret result_ret emit lift raise st_stop try_except app].
Tactic Notation "step" "in" hyp(H) :=
  unfold slider, mbind, Script_bind in H;
  cbn [mret Script_ret result_ret emit lift raise st_stop try_except app] in H.

(** C7: once the files are loaded, a league whose home candidates are empty
    makes the run show the warning "No home teams available for this league"
    and stop right after the league box and the "Home Team" header; a league
    with home candidates but no away candidate makes it show "No away teams
    available for this league" and stop right after the home box and the
    "Away Team" header.  In both cases the outcome is the stop of [st.stop()],
    not an error, and no slider, lookup result, blend or recommendation is
    produced. *)
Theorem no_eligible_teams_stops (fs : Files) (ui : Widgets)
    (league_probs home_probs guest_probs : ProbTable)
    (historical_data : list Match) :
  load_data fs = Ok (league_probs, home_probs, guest_probs, historical_data) →
  let selected_league := chosen (sorted (dom league_probs)) (choose_league ui) in
  let homes := available_home_teams historical_data selected_league home_probs in
  let aways := available_away_teams historical_data selected_league guest_probs in
  let shown :=
    [st_title "🎲 Betting Probability Calculator";
     st_subheader "League Selection";
     st_selectbox "Choose League" (labels league_probs (sorted (dom league_probs)));
     st_subheader "Home Team"] in
  (homes = [] →
   run fs ui
   = (Raise StopException,
      shown ++ [st_warning "No home teams available for this league"]))
  ∧ (homes ≠ [] → aways = [] →
     run fs ui
     = (Raise StopException,
        shown ++ [st_selectbox "Choose Home Team" (labels home_probs homes);
                  st_subheader "Away Team";
                  st_warning "No away teams available for this league"])).
Proof.
  intros Hload selected_league homes aways shown.
  assert (Hstart : run fs ui = main fs ui []) by done.
  unfold main in Hstart. rewrite Hload in Hstart. step in Hstart.
  rewrite (selectbox_run _ _ _ _ _ (league_options_in_table league_probs))
    in Hstart.
  step in Hstart. fold selected_league homes aways in Hstart.
  split.
  - intros Hh. rewrite Hstart, Hh.
    rewrite (bool_decide_eq_false_2 ([] ≠ [])) by (by intros []).
    by step.
  - intros Hh Ha. rewrite Hstart. rewrite (bool_decide_eq_true_2 _ Hh).
    step.
    rewrite (selectbox_run _ _ _ _ _
               (home_options_in_table historical_data selected_league home_probs)).
    step. rewrite Ha.
    rewrite (bool_decide_eq_false_2 ([] ≠ [])) by (by intros []).
    by step.
Qed.

Lemma no_eligible_teams_stops_witness :
  let row := {| probability := 0.7; reliability := "High";
                total_games := 120 |} in
  let league_probs : ProbTable := {[ "NBA" := row ]} in
  let home_probs : ProbTable := {[ "Lakers" := row ]} in
  let guest_probs : ProbTable := {[ "Celtics" := row ]} in
  let historical_data :=
    [{| league := "ACB"; home_team := "Lakers"; guest_team := "Celtics";
        other_columns := [] |}] in
  let fs := {| league_probabilities_csv := Some league_probs;
               home_team_probabilities_csv := Some home_probs;
               guest_team_probabilities_csv := Some guest_probs;
               clean_data_bet_csv := Some historical_data |} in
  let ui := {| choose_league := 0; choose_home := 0; choose_away := 0;
               slide_league := 0.4; slide_home := 0.3; slide_away := 0.3 |} in
  run fs ui
  = (Raise StopException,
     [st_title "🎲 Betting Probability Calculator";
      st_subheader "League Selection";
      st_selectbox "Choose League"
        (labels league_probs (sorted (dom league_probs)));
      st_subheader "Home Team";
      st_warning "No home teams available for this league"]).
Proof.
  intros row league_probs home_probs guest_probs historical_data fs ui.
  apply (proj1 (no_eligible_teams_stops fs ui league_probs home_probs
                  guest_probs historical_data eq_refl)).
  by vm_compute.
Defined.

(** A league with a home candidate is a league of the table. *)
Lemma selected_league_in_table (league_probs home_probs : ProbTable)
    (historical_data : list Match) (choice : nat) :
  let selected_league := chosen (sorted (dom league_probs)) choice in
  available_home_teams historical_data selected_league home_probs ≠ [] →
  ∃ l row, selected_league = Some l ∧ league_probs !! l = Some row.
Proof.
  intros selected_league Hne.
  destruct (available_home_teams historical_data selected_league home_probs)
    as [|t ts] eqn:E; [done|].
  assert (Ht : t ∈ available_home_teams historical_data selected_league
                 home_probs) by (rewrite E; left).
  apply elem_of_available_home_teams in Ht as [(m & _ & Hm & _) _].
  symmetry in Hm. pose proof (chosen_elem _ _ _ Hm) as Hl.
  apply league_options_in_table in Hl as [row Hrow]. eauto.
Qed.

Lemma chosen_in_table (options : list string) (table : ProbTable)
    (choice : nat) :
  (∀ x, x ∈ options → is_Some (table !! x)) → options ≠ [] →
  ∃ x row, chosen options choice = Some x ∧ x ∈ options
           ∧ table !! x = Some row.
Proof.
  intros Hin Hne. destruct (chosen_is_Some options choice Hne) as [x Hx].
  pose proof (chosen_elem _ _ _ Hx) as Hel.
  destruct (Hin x Hel) as [row Hrow]. eauto.
Qed.

(** Runs [main] up to the sliders, given the loaded files, the candidates
    and the rows of the three choices. *)
Ltac run_to_sliders fs ui lp hp gp hist selected_league homes aways
    Hload Hh Ha Hl Hlrow Hch Hhrow Hca Harow :=
  let Hstart := fresh "Hstart" in
  assert (Hstart : run fs ui = main fs ui []) by done;
  unfold main in Hstart; rewrite Hload in Hstart; step in Hstart;
  rewrite (selectbox_run _ _ _ _ _ (league_options_in_table lp)) in Hstart;
  step in Hstart; fold selected_league homes aways in Hstart;
  rewrite (bool_decide_eq_true_2 _ Hh), (bool_decide_eq_true_2 _ Ha)
    in Hstart;
  rewrite (selectbox_run _ _ _ _ _
             (home_options_in_table hist selected_league hp)) in Hstart;
  fold homes in Hstart; rewrite Hch in Hstart;
  rewrite (selectbox_run _ _ _ _ _
             (away_options_in_table hist selected_league gp)) in Hstart;
  fold aways in Hstart; rewrite Hca in Hstart;
  fold selected_league in Hl; clearbody homes aways selected_league;
  rewrite Hl in Hstart;
  unfold card in Hstart;
  rewrite !(loc_present _ _ _ _ Hlrow), !(loc_present _ _ _ _ Hhrow),
    !(loc_present _ _ _ _ Harow) in Hstart;
  step in Hstart;
  rewrite Hstart; clear Hstart.

(** A run with loaded files, candidates on both sides and a total weight
    that is not zero goes through: it returns normally after showing the
    three boxes, the sliders, the combined probability, the three cards, the
    recommendation and the head-to-head rows. *)
Lemma main_completes (fs : Files) (ui : Widgets)
    (league_probs home_probs guest_probs : ProbTable)
    (historical_data : list Match) :
  load_data fs = Ok (league_probs, home_probs, guest_probs, historical_data) →
  let selected_league := chosen (sorted (dom league_probs)) (choose_league ui) in
  let homes := available_home_teams historical_data selected_league home_probs in
  let aways := available_away_teams historical_data selected_league guest_probs in
  homes ≠ [] → aways ≠ [] →
  PrimFloat.eqb (slide_league ui + slide_home ui + slide_away ui) 0 = false →
  ∃ l h a lrow hrow arow ws advice,
    selected_league = Some l ∧ league_probs !! l = Some lrow
    ∧ chosen homes (choose_home ui) = Some h ∧ h ∈ homes
    ∧ home_probs !! h = Some hrow
    ∧ chosen aways (choose_away ui) = Some a ∧ a ∈ aways
    ∧ guest_probs !! a = Some arow
    ∧ weights (slide_league ui) (slide_home ui) (slide_away ui) = Ok ws
    ∧ let combined :=
        combined_prob (probability lrow) (probability hrow) (probability arow)
          ws in
      let rows := head_to_head historical_data (Some h) (Some a) in
      recommendation combined
        (Ok [reliability lrow; reliability hrow; reliability arow]) = Ok advice
      ∧ run fs ui
        = (Ok tt,
           [st_title "🎲 Betting Probability Calculator";
            st_subheader "League Selection";
            st_selectbox "Choose League"
              (labels league_probs (sorted (dom league_probs)));
            st_subheader "Home Team";
            st_selectbox "Choose Home Team" (labels home_probs homes);
            st_subheader "Away Team";
            st_selectbox "Choose Away Team" (labels guest_probs aways);
            st_sidebar_subheader "Probability Weights";
            st_sidebar_slider "League Weight" 0.0 1.0 0.4;
            st_sidebar_slider "Home Team Weight" 0.0 1.0 0.3;
            st_sidebar_slider "Away Team Weight" 0.0 1.0 0.3;
            st_markdown md_rule;
            st_markdown
              (md_combined (get_probability_color combined) combined);
            st_markdown (md_card "League Analysis" (probability lrow)
                           (reliability lrow) (total_games lrow));
            st_markdown (md_card "Home Team Analysis" (probability hrow)
                           (reliability hrow) (total_games hrow));
            st_markdown (md_card "Away Team Analysis" (probability arow)
                           (reliability arow) (total_games arow));
            st_markdown (md_heading "Betting Recommendation");
            advice;
            st_markdown (md_heading "Historical Performance");
            if bool_decide (rows ≠ []) then st_dataframe rows
            else st_info "No historical matches found between these teams"]).
Proof.
  intros Hload selected_league homes aways Hh Ha Htotal.
  destruct (selected_league_in_table league_probs home_probs historical_data
              (choose_league ui) Hh) as (l & lrow & Hl & Hlrow).
  destruct (chosen_in_table homes home_probs (choose_home ui)
              (home_options_in_table _ _ _) Hh) as (h & hrow & Hch & Hhel & Hhrow).
  destruct (chosen_in_table aways guest_probs (choose_away ui)
              (away_options_in_table _ _ _) Ha) as (a & arow & Hca & Hael & Harow).
  set (ws := ((slide_league ui / (slide_league ui + slide_home ui
                                    + slide_away ui))%float,
              (slide_home ui / (slide_league ui + slide_home ui
                                  + slide_away ui))%float,
              (slide_away ui / (slide_league ui + slide_home ui
                                  + slide_away ui))%float)).
  assert (Hws : weights (slide_league ui) (slide_home ui) (slide_away ui)
                = Ok ws).
  { unfold weights. cbn. by rewrite Htotal. }
  pose proof (recommendation_Ok
                (combined_prob (probability lrow) (probability hrow)
                   (probability arow) ws)
                [reliability lrow; reliability hrow; reliability arow])
    as Hadvice.
  exists l, h, a, lrow, hrow, arow, ws. eexists.
  do 8 (split; [done|]). split; [exact Hws|].
  intros combined rows. split; [exact Hadvice|].
  run_to_sliders fs ui league_probs home_probs guest_probs historical_data
    selected_league homes aways Hload Hh Ha Hl Hlrow Hch Hhrow Hca Harow.
  rewrite Hws. cbn [result_bind]. unfold mret, result_ret.
  rewrite Hadvice. cbn [app]. fold combined rows.
  by destruct (bool_decide (rows ≠ [])).
Qed.

(** With all three sliders at zero (a total that compares equal to zero) a
    run that has its three choices stops at the normalisation with
    [ZeroDivisionError], after showing the sliders. *)
Lemma main_zero_total_raises (fs : Files) (ui : Widgets)
    (league_probs home_probs guest_probs : ProbTable)
    (historical_data : list Match) :
  load_data fs = Ok (league_probs, home_probs, guest_probs, historical_data) →
  let selected_league := chosen (sorted (dom league_probs)) (choose_league ui) in
  let homes := available_home_teams historical_data selected_league home_probs in
  let aways := available_away_teams historical_data selected_league guest_probs in
  homes ≠ [] → aways ≠ [] →
  PrimFloat.eqb (slide_league ui + slide_home ui + slide_away ui) 0 = true →
  run fs ui
  = (Raise ZeroDivisionError,
     [st_title "🎲 Betting Probability Calculator";
      st_subheader "League Selection";
      st_selectbox "Choose League"
        (labels league_probs (sorted (dom league_probs)));
      st_subheader "Home Team";
      st_selectbox "Choose Home Team" (labels home_probs homes);
      st_subheader "Away Team";
      st_selectbox "Choose Away Team" (labels guest_probs aways);
      st_sidebar_subheader "Probability Weights";
      st_sidebar_slider "League Weight" 0.0 1.0 0.4;
      st_sidebar_slider "Home Team Weight" 0.0 1.0 0.3;
      st_sidebar_slider "Away Team Weight" 0.0 1.0 0.3]).
Proof.
  intros Hload selected_league homes aways Hh Ha Htotal.
  destruct (selected_league_in_table league_probs home_probs historical_data
              (choose_league ui) Hh) as (l & lrow & Hl & Hlrow).
  destruct (chosen_in_table homes home_probs (choose_home ui)
              (home_options_in_table _ _ _) Hh) as (h & hrow & Hch & Hhel & Hhrow).
  destruct (chosen_in_table aways guest_probs (choose_away ui)
              (away_options_in_table _ _ _) Ha) as (a & arow & Hca & Hael & Harow).
  run_to_sliders fs ui league_probs home_probs guest_probs historical_data
    selected_league homes aways Hload Hh Ha Hl Hlrow Hch Hhrow Hca Harow.
  by rewrite (weights_binary64_zero _ _ _ Htotal).
Qed.

(** ** Normalisation of the weights *)

(** C3, as stated, fails in binary64 on its last part: the normalised
    slider weights [0.1], [0.4], [0.1] sum to [1.0000000000000002]. *)
Lemma weights_sum_binary64_counterexample :
  ¬ (∀ a b c : float,
       non_negative a → non_negative b → non_negative c →
       flt 0 (a + b + c) = true →
       ∃ w0 w1 w2, weights a b c = Ok (w0, w1, w2)
                   ∧ PrimFloat.eqb (w0 + w1 + w2) 1 = true).
Proof.
  intros H.
  destruct (H 0.1 0.4 0.1)%float as (w0 & w1 & w2 & Hw & Hs);
    try (by vm_compute).
  vm_compute in Hw. injection Hw as <- <- <-. by vm_compute in Hs.
Qed.

(** C3, amended: when the three weights are zero (more generally, when
    their total compares equal to zero) normalisation raises
    [ZeroDivisionError] and yields no weights and no blend, and a run that
    reaches the blend ends with that exception, which nothing catches; when
    the total is above zero normalisation returns the three quotients; and
    in exact rational arithmetic the quotients of non-negative weights of
    positive total sum to one. *)
Theorem weights_normalisation :
  (weights 0 0 0 = Raise ZeroDivisionError)%float
  ∧ (∀ p1 p2 p3 : float, blend p1 p2 p3 0 0 0 = Raise ZeroDivisionError)%float
  ∧ (∀ a b c : float,
       PrimFloat.eqb (a + b + c) 0 = true →
       weights a b c = Raise ZeroDivisionError)
  ∧ (∀ fs ui league_probs home_probs guest_probs historical_data,
       load_data fs
       = Ok (league_probs, home_probs, guest_probs, historical_data) →
       let selected_league :=
         chosen (sorted (dom league_probs)) (choose_league ui) in
       available_home_teams historical_data selected_league home_probs ≠ [] →
       available_away_teams historical_data selected_league guest_probs ≠ [] →
       PrimFloat.eqb (slide_league ui + slide_home ui + slide_away ui) 0
       = true →
       (run fs ui).1 = Raise ZeroDivisionError)
  ∧ (∀ a b c : float,
       flt 0 (a + b + c) = true →
       ∃ w0 w1 w2, weights a b c = Ok (w0, w1, w2))
  ∧ (∀ a b c : Q,
       (0 <= a)%Q → (0 <= b)%Q → (0 <= c)%Q → (0 < a + b + c)%Q →
       ∃ w0 w1 w2, weights a b c = Ok (w0, w1, w2)
                   ∧ (w0 + w1 + w2 == 1)%Q).
Proof.
  split; [by vm_compute|]. split; [by vm_compute|].
  split; [exact weights_binary64_zero|]. split; [|split].
  - intros fs ui lp hp gp hist Hload sel Hh Ha Ht.
    by rewrite (main_zero_total_raises fs ui lp hp gp hist Hload Hh Ha Ht).
  - intros a b c Ht. rewrite (weights_binary64_positive a b c Ht). eauto.
  - intros a b c Ha Hb Hc Ht. rewrite (weights_exact a b c Ht).
    do 3 eexists; split; [reflexivity|].
    apply (weights_exact_convex a b c Ha Hb Hc Ht).
Qed.

Lemma weights_normalisation_witness :
  (∃ w0 w1 w2, weights 0.4 0.3 0.3 = Ok (w0, w1, w2))%float
  ∧ (∃ w0 w1 w2, weights (4 # 10) (3 # 10) (3 # 10) = Ok (w0, w1, w2)
                 ∧ (w0 + w1 + w2 == 1)%Q)
  ∧ (run sample_files
       {| choose_league := 1; choose_home := 1; choose_away := 0;
          slide_league := 0; slide_home := 0; slide_away := 0 |}).1
    = Raise ZeroDivisionError.
Proof.
  destruct weights_normalisation as (_ & _ & _ & Hrun & H64 & HQ).
  split; [|split].
  - apply (H64 0.4 0.3 0.3)%float. by vm_compute.
  - apply (HQ (4 # 10) (3 # 10) (3 # 10)); by vm_compute.
  - apply (Hrun sample_files _ sample_league_probs sample_home_probs
             sample_guest_probs sample_history eq_refl); by vm_compute.
Defined.

(** ** A complete run *)

(** The run on the small data set: the blend of [0.70], [0.65] and [0.55]
    with the default weights is [0.64], shown as high, and with the three
    labels high the recommendation is the strong one. *)
Example sample_run :
  run sample_files sample_widgets
  = (Ok tt,
     [st_title "🎲 Betting Probability Calculator";
      st_subheader "League Selection";
      st_selectbox "Choose League" [("ACB", 0.4); ("NBA", 0.7)]%float;
      st_subheader "Home Team";
      st_selectbox "Choose Home Team" [("Bulls", 0.4); ("Lakers", 0.65)]%float;
      st_subheader "Away Team";
      st_selectbox "Choose Away Team" [("Celtics", 0.55%float)];
      st_sidebar_subheader "Probability Weights";
      st_sidebar_slider "League Weight" 0.0 1.0 0.4;
      st_sidebar_slider "Home Team Weight" 0.0 1.0 0.3;
      st_sidebar_slider "Away Team Weight" 0.0 1.0 0.3;
      st_markdown md_rule;
      st_markdown (md_combined "high-probability" 0.64);
      st_markdown (md_card "League Analysis" 0.7 "High" 100);
      st_markdown (md_card "Home Team Analysis" 0.65 "High" 100);
      st_markdown (md_card "Away Team Analysis" 0.55 "Very High" 100);
      st_markdown (md_heading "Betting Recommendation");
      st_success "Strong Betting Opportunity ✅";
      st_markdown (md_heading "Historical Performance");
      st_dataframe [sample_match "NBA" "Lakers" "Celtics";
                    sample_match "ACB" "Lakers" "Celtics"]]).
Proof. by vm_compute. Qed.

(** With the three sliders at zero the same run ends with
    [ZeroDivisionError]. *)
Example sample_run_zero_weights :
  (run sample_files
     {| choose_league := 1; choose_home := 1; choose_away := 0;
        slide_league := 0; slide_home := 0; slide_away := 0 |}).1
  = Raise ZeroDivisionError.
Proof. by vm_compute. Qed.

(** ** Head-to-head rows of a run *)

(** With NBA selected, the table shown for Lakers against Celtics holds the
    NBA row and the ACB row. *)
Example head_to_head_sample :
  (run sample_files sample_widgets).1 = Ok tt
  ∧ last (run sample_files sample_widgets).2
    = Some (st_dataframe [sample_match "NBA" "Lakers" "Celtics";
                          sample_match "ACB" "Lakers" "Celtics"]).
Proof. by vm_compute. Qed.

(** C10: in a run that reaches the end, the last call shows the head-to-head
    rows of the chosen home and away team (or the note that there is none),
    and a row of the historical data is among them exactly when its home
    team and its guest team are the chosen ones; its league plays no part, so
    the rows of the pair in leagues other than the selected one are shown
    too. *)
Theorem head_to_head_by_teams_only (fs : Files) (ui : Widgets)
    (league_probs home_probs guest_probs : ProbTable)
    (historical_data : list Match) :
  load_data fs = Ok (league_probs, home_probs, guest_probs, historical_data) →
  let selected_league := chosen (sorted (dom league_probs)) (choose_league ui) in
  let homes := available_home_teams historical_data selected_league home_probs in
  let aways := available_away_teams historical_data selected_league guest_probs in
  homes ≠ [] → aways ≠ [] →
  PrimFloat.eqb (slide_league ui + slide_home ui + slide_away ui) 0 = false →
  ∃ h a,
    chosen homes (choose_home ui) = Some h
    ∧ chosen aways (choose_away ui) = Some a
    ∧ let rows := head_to_head historical_data (Some h) (Some a) in
      (run fs ui).1 = Ok tt
      ∧ last (run fs ui).2
        = Some (if bool_decide (rows ≠ []) then st_dataframe rows
                else st_info "No historical matches found between these teams")
      ∧ (∀ m, m ∈ rows ↔ m ∈ historical_data ∧ home_team m = h
                          ∧ guest_team m = a)
      ∧ (∀ m, m ∈ historical_data → home_team m = h → guest_team m = a →
              Some (league m) ≠ selected_league → m ∈ rows).
Proof.
  intros Hload selected_league homes aways Hh Ha Htotal.
  destruct (main_completes fs ui league_probs home_probs guest_probs
              historical_data Hload Hh Ha Htotal)
    as (l & h & a & lrow & hrow & arow & ws & advice & _ & _ & Hch & _ & _
        & Hca & _ & _ & _ & _ & Hrun).
  exists h, a. split; [exact Hch|]. split; [exact Hca|].
  intros rows. rewrite Hrun. split; [done|]. split; [done|]. split.
  - intros m. apply elem_of_head_to_head.
  - intros m Hm Hmh Hma _. by apply elem_of_head_to_head.
Qed.

Lemma head_to_head_by_teams_only_witness :
  let selected_league :=
    chosen (sorted (dom sample_league_probs)) (choose_league sample_widgets) in
  let homes :=
    available_home_teams sample_history selected_league sample_home_probs in
  let aways :=
    available_away_teams sample_history selected_league sample_guest_probs in
  ∃ h a,
    chosen homes (choose_home sample_widgets) = Some h
    ∧ chosen aways (choose_away sample_widgets) = Some a
    ∧ let rows := head_to_head sample_history (Some h) (Some a) in
      (run sample_files sample_widgets).1 = Ok tt
      ∧ last (run sample_files sample_widgets).2
        = Some (if bool_decide (rows ≠ []) then st_dataframe rows
                else st_info "No historical matches found between these teams")
      ∧ (∀ m, m ∈ rows ↔ m ∈ sample_history ∧ home_team m = h
                          ∧ guest_team m = a)
      ∧ (∀ m, m ∈ sample_history → home_team m = h → guest_team m = a →
              Some (league m) ≠ selected_league → m ∈ rows).
Proof.
  apply (head_to_head_by_teams_only sample_files sample_widgets
           sample_league_probs sample_home_probs sample_guest_probs
           sample_history eq_refl); by vm_compute.
Defined.

(** * Further properties *)

(** ** Outcomes of a run *)

(** [load_data] reads the files in the order leagues, home teams, guest
    teams, historical matches, and raises for the first absent one. *)
Lemma load_data_cases (fs : Files) :
  load_data fs
  = match league_probabilities_csv fs, home_team_probabilities_csv fs,
          guest_team_probabilities_csv fs, clean_data_bet_csv fs with
    | Some league_probs, Some home_probs, Some guest_probs,
      Some historical_data =>
        Ok (league_probs, home_probs, guest_probs, historical_data)
    | None, _, _, _ => Raise (FileNotFoundError "league_probabilities.csv")
    | Some _, None, _, _ =>
        Raise (FileNotFoundError "home_team_probabilities.csv")
    | Some _, Some _, None, _ =>
        Raise (FileNotFoundError "guest_team_probabilities.csv")
    | Some _, Some _, Some _, None =>
        Raise (FileNotFoundError "clean_data_bet.csv")
    end.
Proof.
  unfold load_data.
  by destruct (league_probabilities_csv fs), (home_team_probabilities_csv fs),
    (guest_team_probabilities_csv fs), (clean_data_bet_csv fs).
Qed.

Lemma load_data_raises (fs : Files) (e : exn) :
  load_data fs = Raise e → ∃ path, e = FileNotFoundError path.
Proof.
  rewrite load_data_cases.
  destruct (league_probabilities_csv fs), (home_team_probabilities_csv fs),
    (guest_team_probabilities_csv fs), (clean_data_bet_csv fs);
    intros [= <-]; eauto.
Qed.

(** A run whose files do not load stops. *)
Lemma run_not_loaded (fs : Files) (ui : Widgets) (e : exn) :
  load_data fs = Raise e → (run fs ui).1 = Raise StopException.
Proof.
  intros Hl. destruct (load_data_raises fs e Hl) as [path ->].
  unfold run, main. by rewrite Hl.
Qed.

(** A run with no home candidate, or with no away candidate, stops. *)
Lemma run_no_candidates (fs : Files) (ui : Widgets)
    (league_probs home_probs guest_probs : ProbTable)
    (historical_data : list Match) :
  load_data fs = Ok (league_probs, home_probs, guest_probs, historical_data) →
  let selected_league := chosen (sorted (dom league_probs)) (choose_league ui) in
  let homes := available_home_teams historical_data selected_league home_probs in
  let aways := available_away_teams historical_data selected_league guest_probs in
  homes = [] ∨ aways = [] → (run fs ui).1 = Raise StopException.
Proof.
  intros Hload selected_league homes aways Hempty.
  assert (Hstart : run fs ui = main fs ui []) by done.
  unfold main in Hstart. rewrite Hload in Hstart. step in Hstart.
  rewrite (selectbox_run _ _ _ _ _ (league_options_in_table league_probs))
    in Hstart.
  step in Hstart. fold selected_league homes aways in Hstart.
  rewrite Hstart. clear Hstart.
  destruct (decide (homes = [])) as [Hh|Hh].
  - rewrite Hh. rewrite (bool_decide_eq_false_2 ([] ≠ [])) by (by intros []).
    by step.
  - destruct Hempty as [?|Ha]; [done|].
    rewrite (bool_decide_eq_true_2 _ Hh). step.
    rewrite (selectbox_run _ _ _ _ _
               (home_options_in_table historical_data selected_league
                  home_probs)).
    step. rewrite Ha.
    rewrite (bool_decide_eq_false_2 ([] ≠ [])) by (by intros []).
    by step.
Qed.

(** X1: every run ends in one of three ways: normally, by [st.stop()], or
    with [ZeroDivisionError]; no lookup ever raises [KeyError] and no
    [FileNotFoundError] escapes.  It stops when a file is absent or a team
    box has no option; otherwise it ends with [ZeroDivisionError] when the
    total of the sliders compares equal to zero, and normally when it does
    not. *)
Theorem run_outcome (fs : Files) (ui : Widgets) :
  ((run fs ui).1 = Ok tt ∨ (run fs ui).1 = Raise StopException
   ∨ (run fs ui).1 = Raise ZeroDivisionError)
  ∧ match load_data fs with
    | Raise _ => (run fs ui).1 = Raise StopException
    | Ok (league_probs, home_probs, guest_probs, historical_data) =>
        let selected_league :=
          chosen (sorted (dom league_probs)) (choose_league ui) in
        let homes :=
          available_home_teams historical_data selected_league home_probs in
        let aways :=
          available_away_teams historical_data selected_league guest_probs in
        if bool_decide (homes = [] ∨ aways = [])
        then (run fs ui).1 = Raise StopException
        else if PrimFloat.eqb
                  (slide_league ui + slide_home ui + slide_away ui) 0
        then (run fs ui).1 = Raise ZeroDivisionError
        else (run fs ui).1 = Ok tt
    end.
Proof.
  destruct (load_data fs) as [[[[lp hp] gp] hist]|e] eqn:Hload.
  - cbv zeta. case_bool_decide as Hempty.
    + rewrite (run_no_candidates fs ui lp hp gp hist Hload Hempty). auto.
    + assert (Hh : available_home_teams hist
                     (chosen (sorted (dom lp)) (choose_league ui)) hp ≠ [])
        by tauto.
      assert (Ha : available_away_teams hist
                     (chosen (sorted (dom lp)) (choose_league ui)) gp ≠ [])
        by tauto.
      destruct (PrimFloat.eqb (slide_league ui + slide_home ui + slide_away ui)
                  0) eqn:Ht.
      * rewrite (main_zero_total_raises fs ui lp hp gp hist Hload Hh Ha Ht).
        auto.
      * destruct (main_completes fs ui lp hp gp hist Hload Hh Ha Ht)
          as (? & ? & ? & ? & ? & ? & ? & ? & _ & _ & _ & _ & _ & _ & _ & _ & _
              & _ & ->).
        auto.
  - rewrite (run_not_loaded fs ui e Hload). auto.
Qed.

(** ** Selections and report of a run *)

(** X2: when both team boxes have options, the three selections are sound:
    the selected league is a key of the league table, the selected home team
    is a key of the home table and was the home team of some row of that
    league, and the selected away team is a key of the guest table and was
    the guest team of some row of that league. *)
Theorem selections_are_rows (ui : Widgets)
    (league_probs home_probs guest_probs : ProbTable)
    (historical_data : list Match) :
  let selected_league := chosen (sorted (dom league_probs)) (choose_league ui) in
  let homes := available_home_teams historical_data selected_league home_probs in
  let aways := available_away_teams historical_data selected_league guest_probs in
  homes ≠ [] → aways ≠ [] →
  ∃ l h a,
    selected_league = Some l ∧ is_Some (league_probs !! l)
    ∧ chosen homes (choose_home ui) = Some h
    ∧ played_home historical_data (Some l) h ∧ is_Some (home_probs !! h)
    ∧ chosen aways (choose_away ui) = Some a
    ∧ played_guest historical_data (Some l) a ∧ is_Some (guest_probs !! a).
Proof.
  intros selected_league homes aways Hh Ha.
  destruct (selected_league_in_table league_probs home_probs historical_data
              (choose_league ui) Hh) as (l & lrow & Hl & Hlrow).
  destruct (chosen_in_table homes home_probs (choose_home ui)
              (home_options_in_table _ _ _) Hh) as (h & hrow & Hch & Hhel & Hhrow).
  destruct (chosen_in_table aways guest_probs (choose_away ui)
              (away_options_in_table _ _ _) Ha) as (a & arow & Hca & Hael & Harow).
  apply elem_of_available_home_teams in Hhel as [Hph _].
  apply elem_of_available_away_teams in Hael as [Hpa _].
  fold selected_league in Hl, Hph, Hpa. rewrite Hl in Hph, Hpa.
  exists l, h, a. eauto 10.
Qed.

Lemma selections_are_rows_witness :
  let selected_league :=
    chosen (sorted (dom sample_league_probs)) (choose_league sample_widgets) in
  let homes :=
    available_home_teams sample_history selected_league sample_home_probs in
  let aways :=
    available_away_teams sample_history selected_league sample_guest_probs in
  ∃ l h a,
    selected_league = Some l ∧ is_Some (sample_league_probs !! l)
    ∧ chosen homes (choose_home sample_widgets) = Some h
    ∧ played_home sample_history (Some l) h ∧ is_Some (sample_home_probs !! h)
    ∧ chosen aways (choose_away sample_widgets) = Some a
    ∧ played_guest sample_history (Some l) a
    ∧ is_Some (sample_guest_probs !! a).
Proof.
  apply (selections_are_rows sample_widgets sample_league_probs
           sample_home_probs sample_guest_probs sample_history);
    by vm_compute.
Defined.

(** X3: a run with loaded files, options in both team boxes and a total
    weight that does not compare equal to zero returns normally, and what it
    shows is determined by the rows of the three selections: the combined
    probability is the blend of their three probabilities with the slider
    weights, coloured by [get_probability_color]; the cards show the three
    rows; the recommendation is the one of the combined probability and the
    three reliabilities; the last call shows the head-to-head rows. *)
Theorem completed_run_report (fs : Files) (ui : Widgets)
    (league_probs home_probs guest_probs : ProbTable)
    (historical_data : list Match) :
  load_data fs = Ok (league_probs, home_probs, guest_probs, historical_data) →
  let selected_league := chosen (sorted (dom league_probs)) (choose_league ui) in
  let homes := available_home_teams historical_data selected_league home_probs in
  let aways := available_away_teams historical_data selected_league guest_probs in
  homes ≠ [] → aways ≠ [] →
  PrimFloat.eqb (slide_league ui + slide_home ui + slide_away ui) 0 = false →
  ∃ l h a lrow hrow arow combined advice,
    selected_league = Some l ∧ league_probs !! l = Some lrow
    ∧ chosen homes (choose_home ui) = Some h ∧ home_probs !! h = Some hrow
    ∧ chosen aways (choose_away ui) = Some a ∧ guest_probs !! a = Some arow
    ∧ blend (probability lrow) (probability hrow) (probability arow)
        (slide_league ui) (slide_home ui) (slide_away ui) = Ok combined
    ∧ recommendation combined
        (Ok [reliability lrow; reliability hrow; reliability arow]) = Ok advice
    ∧ run fs ui
      = (Ok tt,
         report league_probs home_probs guest_probs homes aways lrow hrow arow
           combined advice (head_to_head historical_data (Some h) (Some a))).
Proof.
  intros Hload selected_league homes aways Hh Ha Htotal.
  destruct (main_completes fs ui league_probs home_probs guest_probs
              historical_data Hload Hh Ha Htotal)
    as (l & h & a & lrow & hrow & arow & ws & advice & Hl & Hlrow & Hch & _
        & Hhrow & Hca & _ & Harow & Hws & Hadvice & Hrun).
  exists l, h, a, lrow, hrow, arow.
  exists (combined_prob (probability lrow) (probability hrow)
            (probability arow) ws), advice.
  do 6 (split; [done|]). split; [|split; [exact Hadvice|exact Hrun]].
  unfold blend. by rewrite Hws.
Qed.

Lemma completed_run_report_witness :
  let selected_league :=
    chosen (sorted (dom sample_league_probs)) (choose_league sample_widgets) in
  let homes :=
    available_home_teams sample_history selected_league sample_home_probs in
  let aways :=
    available_away_teams sample_history selected_league sample_guest_probs in
  ∃ l h a lrow hrow arow combined advice,
    selected_league = Some l ∧ sample_league_probs !! l = Some lrow
    ∧ chosen homes (choose_home sample_widgets) = Some h
    ∧ sample_home_probs !! h = Some hrow
    ∧ chosen aways (choose_away sample_widgets) = Some a
    ∧ sample_guest_probs !! a = Some arow
    ∧ blend (probability lrow) (probability hrow) (probability arow)
        (slide_league sample_widgets) (slide_home sample_widgets)
        (slide_away sample_widgets) = Ok combined
    ∧ recommendation combined
        (Ok [reliability lrow; reliability hrow; reliability arow]) = Ok advice
    ∧ run sample_files sample_widgets
      = (Ok tt,
         report sample_league_probs sample_home_probs sample_guest_probs
           homes aways lrow hrow arow combined advice
           (head_to_head sample_history (Some h) (Some a))).
Proof.
  apply (completed_run_report sample_files sample_widgets
           sample_league_probs sample_home_probs sample_guest_probs
           sample_history eq_refl); by vm_compute.
Defined.

(** ** Colour and recommendation *)

(** A value that does not compare equal to itself is a NaN, and every
    comparison with it is false. *)
Lemma leb_nan (c x : float) :
  PrimFloat.eqb c c = false →
  PrimFloat.leb x c = false ∧ PrimFloat.leb c x = false.
Proof.
  rewrite FloatAxioms.eqb_spec, !FloatAxioms.leb_spec. unfold SFeqb, SFleb.
  intros Hc.
  assert (Prim2SF c = S754_nan) as ->.
  { destruct (Prim2SF c) as [| | |] eqn:E; [..|done|];
      by rewrite SFcompare_refl in Hc. }
  by destruct (Prim2SF x).
Qed.

(** X4: the colour never goes down when the value goes up: if [p <= q] and
    [p] is coloured high then so is [q], and if [p] is coloured medium then
    [q] is coloured medium or high. *)
Theorem get_probability_color_monotone (p q : float) :
  fle p q = true →
  (get_probability_color p = "high-probability" →
   get_probability_color q = "high-probability")
  ∧ (get_probability_color p = "medium-probability" →
     get_probability_color q = "medium-probability"
     ∨ get_probability_color q = "high-probability").
Proof.
  unfold get_probability_color, fle, fge. intros Hpq.
  destruct (PrimFloat.leb 0.6 p) eqn:E6.
  - rewrite (leb_trans 0.6 p q E6 Hpq). by split.
  - split; [by destruct (PrimFloat.leb 0.45 p)|].
    destruct (PrimFloat.leb 0.45 p) eqn:E45; [|done]. intros _.
    rewrite (leb_trans 0.45 p q E45 Hpq).
    destruct (PrimFloat.leb 0.6 q); auto.
Qed.

Lemma get_probability_color_monotone_witness :
  get_probability_color 0.64 = "medium-probability"
  ∨ get_probability_color 0.64 = "high-probability".
Proof.
  apply (get_probability_color_monotone 0.5 0.64); by vm_compute.
Defined.

(** X5: a combined probability that is a NaN (it does not compare equal to
    itself) is coloured low and gets the Moderate recommendation, whatever
    the reliabilities; they are not even looked up. *)
Theorem nan_probability_shown (combined : float)
    (reliabilities : result (list string)) :
  PrimFloat.eqb combined combined = false →
  get_probability_color combined = "low-probability"
  ∧ recommendation combined reliabilities = Ok (st_warning moderate_text).
Proof.
  intros Hnan. unfold get_probability_color, recommendation, fge, fle.
  destruct (leb_nan combined 0.6 Hnan) as [-> _].
  destruct (leb_nan combined 0.45 Hnan) as [-> _].
  by destruct (leb_nan combined 0.4 Hnan) as [_ ->].
Qed.

Lemma nan_probability_shown_witness :
  get_probability_color nan = "low-probability"
  ∧ recommendation nan (Raise (KeyError None)) = Ok (st_warning moderate_text).
Proof. apply (nan_probability_shown nan). by vm_compute. Defined.

(** X6: colour and recommendation of one combined probability agree: the
    Strong recommendation only comes with the high colour, the High Risk
    recommendation only with the low colour, and a medium colour always
    comes with the Moderate recommendation. *)
Theorem recommendation_matches_color (combined : float) (rs : list string) :
  (recommendation combined (Ok rs) = Ok (st_success strong_text) →
   get_probability_color combined = "high-probability")
  ∧ (recommendation combined (Ok rs) = Ok (st_error high_risk_text) →
     get_probability_color combined = "low-probability")
  ∧ (get_probability_color combined = "medium-probability" →
     recommendation combined (Ok rs) = Ok (st_warning moderate_text)).
Proof.
  rewrite recommendation_Ok. unfold get_probability_color, fge, fle.
  assert (H4 : PrimFloat.leb combined 0.4 = true →
               PrimFloat.leb 0.45 combined = false).
  { intros H. destruct (PrimFloat.leb 0.45 combined) eqn:E; [|done].
    by pose proof (leb_trans 0.45 combined 0.4 E H). }
  assert (H6 : PrimFloat.leb 0.6 combined = true →
               PrimFloat.leb 0.45 combined = true).
  { apply (leb_trans 0.45 0.6 combined). by vm_compute. }
  destruct (PrimFloat.leb 0.6 combined) eqn:E6.
  - rewrite (H6 eq_refl) in H4.
    destruct (all_high rs), (PrimFloat.leb combined 0.4); cbn [andb];
      try (by specialize (H4 eq_refl)); by repeat split.
  - cbn [andb]. destruct (PrimFloat.leb combined 0.4) eqn:E4.
    + rewrite (H4 eq_refl). by repeat split.
    + by destruct (PrimFloat.leb 0.45 combined).
Qed.

(** ** Candidates and boxes *)

(** X7: the candidate lists depend only on which rows the selected league
    has: two historical data sets with the same rows for that league (in any
    order, any number of times, and whatever their rows for other leagues)
    give the same home candidates and the same away candidates. *)
Theorem available_teams_same_league_rows (h1 h2 : list Match)
    (selected_league : option string) (home_probs guest_probs : ProbTable) :
  (∀ m, Some (league m) = selected_league → m ∈ h1 ↔ m ∈ h2) →
  available_home_teams h1 selected_league home_probs
  = available_home_teams h2 selected_league home_probs
  ∧ available_away_teams h1 selected_league guest_probs
    = available_away_teams h2 selected_league guest_probs.
Proof.
  intros Hsame.
  assert (Hh : ∀ t, played_home h1 selected_league t
                    ↔ played_home h2 selected_league t).
  { intros t. split; intros (m & Hm & Hl & Ht); exists m;
      (split; [by apply (Hsame m Hl)|done]). }
  assert (Ha : ∀ t, played_guest h1 selected_league t
                    ↔ played_guest h2 selected_league t).
  { intros t. split; intros (m & Hm & Hl & Ht); exists m;
      (split; [by apply (Hsame m Hl)|done]). }
  split.
  - apply (sorted_listing_unique _ _
             (λ t, played_home h1 selected_league t ∧ is_Some (home_probs !! t))).
    + split; [apply sorted_spec|]. split; [apply sorted_spec|].
      intros t. apply elem_of_available_home_teams.
    + split; [apply sorted_spec|]. split; [apply sorted_spec|].
      intros t. rewrite elem_of_available_home_teams. by rewrite Hh.
  - apply (sorted_listing_unique _ _
             (λ t, played_guest h1 selected_league t
                   ∧ is_Some (guest_probs !! t))).
    + split; [apply sorted_spec|]. split; [apply sorted_spec|].
      intros t. apply elem_of_available_away_teams.
    + split; [apply sorted_spec|]. split; [apply sorted_spec|].
      intros t. rewrite elem_of_available_away_teams. by rewrite Ha.
Qed.

Lemma available_teams_same_league_rows_witness :
  available_home_teams sample_history (Some "NBA") sample_home_probs
  = available_home_teams
      (sample_match "EBA" "Manresa" "Girona" :: reverse sample_history
       ++ sample_history)
      (Some "NBA") sample_home_probs
  ∧ available_away_teams sample_history (Some "NBA") sample_guest_probs
    = available_away_teams
        (sample_match "EBA" "Manresa" "Girona" :: reverse sample_history
         ++ sample_history)
        (Some "NBA") sample_guest_probs.
Proof.
  apply (available_teams_same_league_rows sample_history
           (sample_match "EBA" "Manresa" "Girona" :: reverse sample_history
            ++ sample_history) (Some "NBA")).
  intros m Hm. rewrite elem_of_cons, elem_of_app, elem_of_reverse.
  split; [tauto|]. intros [->|[?|?]]; done.
Defined.

(** Without a selected league there is no candidate. *)
Lemma available_teams_no_league (historical_data : list Match)
    (home_probs guest_probs : ProbTable) :
  available_home_teams historical_data None home_probs = []
  ∧ available_away_teams historical_data None guest_probs = [].
Proof.
  split.
  - destruct (available_home_teams historical_data None home_probs)
      as [|t ts] eqn:E; [done|].
    assert (Ht : t ∈ available_home_teams historical_data None home_probs)
      by (rewrite E; left).
    by apply elem_of_available_home_teams in Ht as [(m & _ & ? & _) _].
  - destruct (available_away_teams historical_data None guest_probs)
      as [|t ts] eqn:E; [done|].
    assert (Ht : t ∈ available_away_teams historical_data None guest_probs)
      by (rewrite E; left).
    by apply elem_of_available_away_teams in Ht as [(m & _ & ? & _) _].
Qed.

Lemma sorted_empty : sorted ∅ = [].
Proof. unfold sorted. by rewrite elements_empty. Qed.

(** X8: with an empty league table the league box has no option and returns
    no league, no team is a candidate, and the run stops with the warning
    about home teams right after the "Home Team" header, whatever the other
    tables and the historical data hold. *)
Theorem empty_league_table_stops (fs : Files) (ui : Widgets)
    (home_probs guest_probs : ProbTable) (historical_data : list Match) :
  load_data fs = Ok (∅, home_probs, guest_probs, historical_data) →
  run fs ui
  = (Raise StopException,
     [st_title "🎲 Betting Probability Calculator";
      st_subheader "League Selection";
      st_selectbox "Choose League" [];
      st_subheader "Home Team";
      st_warning "No home teams available for this league"]).
Proof.
  intros Hload.
  assert (Hstart : run fs ui = main fs ui []) by done.
  unfold main in Hstart. rewrite Hload in Hstart. step in Hstart.
  rewrite dom_empty_L, sorted_empty in Hstart.
  rewrite (selectbox_run _ [] ∅ _ _) in Hstart by (by intros x ?%elem_of_nil).
  step in Hstart. change (chosen [] (choose_league ui)) with (@None string)
    in Hstart.
  rewrite (proj1 (available_teams_no_league historical_data home_probs
                    guest_probs)) in Hstart.
  rewrite (bool_decide_eq_false_2 ([] ≠ [])) in Hstart by (by intros []).
  step in Hstart. by rewrite Hstart.
Qed.

Lemma empty_league_table_stops_witness :
  run {| league_probabilities_csv := Some ∅;
         home_team_probabilities_csv := Some sample_home_probs;
         guest_team_probabilities_csv := Some sample_guest_probs;
         clean_data_bet_csv := Some sample_history |} sample_widgets
  = (Raise StopException,
     [st_title "🎲 Betting Probability Calculator";
      st_subheader "League Selection";
      st_selectbox "Choose League" [];
      st_subheader "Home Team";
      st_warning "No home teams available for this league"]).
Proof.
  by apply (empty_league_table_stops _ sample_widgets sample_home_probs
              sample_guest_probs sample_history).
Defined.

(** Formatting raises for the first option that is not a key. *)
Lemma mapM_format_func_missing (table : ProbTable) (options : list string) :
  (∃ x, x ∈ options ∧ table !! x = None) →
  ∃ k, k ∈ options ∧ table !! k = None
       ∧ mapM (format_func table) options = Raise (KeyError (Some k)).
Proof.
  induction options as [|y options IH]; intros Hmiss;
    [by destruct Hmiss as (? & ?%elem_of_nil & _)|].
  change (mapM (format_func table) (y :: options))
    with (z ← format_func table y;
          r ← mapM (format_func table) options; mret (z :: r)).
  destruct (table !! y) as [row|] eqn:Hy.
  - assert (Hf : format_func table y = Ok (y, probability row)).
    { unfold format_func. by rewrite (loc_present _ _ _ _ Hy). }
    destruct IH as (k & Hk & Hkn & Hm).
    { destruct Hmiss as (x & [->|Hx]%elem_of_cons & Hn); [congruence|eauto]. }
    exists k. split; [by right|]. split; [done|]. rewrite Hf, Hm. done.
  - assert (Hf : format_func table y = Raise (KeyError (Some y))).
    { unfold format_func, loc. cbn. by rewrite Hy. }
    exists y. split; [left|]. split; [done|]. by rewrite Hf.
Qed.

(** X9: a select box over a table formats its options in order, each with
    the probability of its row, records them in one call and returns the
    chosen option, which is one of the options (or nothing when there is
    none); if an option is not a key of the table, formatting raises
    [KeyError] for an option that is missing and no box is recorded. *)
Theorem selectbox_formats_options (label : string) (options : list string)
    (table : ProbTable) (choice : nat) (log : list call) :
  ((∀ x, x ∈ options → is_Some (table !! x)) →
   ∃ shown,
     selectbox label options (format_func table) choice log
     = (Ok (chosen options choice), log ++ [st_selectbox label shown])
     ∧ shown.*1 = options
     ∧ (∀ x p, (x, p) ∈ shown →
               ∃ row, table !! x = Some row ∧ p = probability row)
     ∧ (options = [] → chosen options choice = None)
     ∧ (options ≠ [] → ∃ x, chosen options choice = Some x ∧ x ∈ options))
  ∧ ((∃ x, x ∈ options ∧ table !! x = None) →
     ∃ k, k ∈ options ∧ table !! k = None
          ∧ selectbox label options (format_func table) choice log
            = (Raise (KeyError (Some k)), log)).
Proof.
  split.
  - intros Hin. exists (labels table options).
    split; [by apply selectbox_run|].
    assert (Hl : ∀ opts, (∀ x, x ∈ opts → is_Some (table !! x)) →
              (labels table opts).*1 = opts
              ∧ ∀ x p, (x, p) ∈ labels table opts →
                       ∃ row, table !! x = Some row ∧ p = probability row).
    { clear. induction opts as [|y opts IH]; intros Hin.
      - split; [done|]. by intros x p ?%elem_of_nil.
      - destruct (Hin y) as [row Hrow]; [left|].
        destruct IH as [IH1 IH2]; [intros z ?; apply Hin; by right|].
        unfold labels in *. cbn. rewrite Hrow. cbn. split; [by f_equal|].
        intros x p [[= -> ->]|?]%elem_of_cons; [eauto|by apply IH2]. }
    destruct (Hl options Hin) as [H1 H2].
    split; [done|]. split; [done|]. split; [by intros ->|].
    intros Hne. destruct (chosen_is_Some options choice Hne) as [x Hx].
    exists x. split; [done|]. by eapply chosen_elem.
  - intros Hmiss.
    destruct (mapM_format_func_missing table options Hmiss)
      as (k & Hk & Hkn & Hm).
    exists k. split; [done|]. split; [done|].
    unfold selectbox. step. by rewrite Hm.
Qed.

Lemma selectbox_formats_options_witness :
  ∃ shown,
    selectbox "Choose League" ["ACB"; "NBA"] (format_func sample_league_probs)
      1 []
    = (Ok (chosen ["ACB"; "NBA"] 1), [] ++ [st_selectbox "Choose League" shown])
    ∧ shown.*1 = ["ACB"; "NBA"]
    ∧ (∀ x p, (x, p) ∈ shown →
              ∃ row, sample_league_probs !! x = Some row
                     ∧ p = probability row)
    ∧ (["ACB"; "NBA"] = [] → chosen ["ACB"; "NBA"] 1 = None)
    ∧ (["ACB"; "NBA"] ≠ [] →
       ∃ x, chosen ["ACB"; "NBA"] 1 = Some x ∧ x ∈ ["ACB"; "NBA"]).
Proof.
  apply (proj1 (selectbox_formats_options "Choose League" ["ACB"; "NBA"]
                  sample_league_probs 1 [])).
  intros x [->|[->|?%elem_of_nil]%elem_of_cons]%elem_of_cons;
    [vm_compute; eauto..|done].
Defined.

(** ** The blend in exact arithmetic *)

(** X10: read in exact rational arithmetic, the blend with non-negative
    weights of positive total lies between any two bounds that enclose the
    three probabilities, hence between the smallest and the largest of
    them; three equal probabilities blend to that probability. *)
Theorem blend_exact_between (p1 p2 p3 w1 w2 w3 lo hi : Q) :
  (lo <= p1 <= hi)%Q → (lo <= p2 <= hi)%Q → (lo <= p3 <= hi)%Q →
  (0 <= w1)%Q → (0 <= w2)%Q → (0 <= w3)%Q → (0 < w1 + w2 + w3)%Q →
  ∃ combined, blend p1 p2 p3 w1 w2 w3 = Ok combined
              ∧ (lo <= combined <= hi)%Q.
Proof.
  intros Hp1 Hp2 Hp3 Hw1 Hw2 Hw3 Ht.
  unfold blend. rewrite (weights_exact _ _ _ Ht). cbn.
  eexists; split; [reflexivity|].
  destruct (weights_exact_convex _ _ _ Hw1 Hw2 Hw3 Ht) as (H1 & H2 & H3 & Hs).
  set (x1 := (w1 / (w1 + w2 + w3))%Q) in *.
  set (x2 := (w2 / (w1 + w2 + w3))%Q) in *.
  set (x3 := (w3 / (w1 + w2 + w3))%Q) in *.
  assert (Hx3 : (x3 == 1 - x1 - x2)%Q) by lra.
  rewrite Hx3 in *. clear Hx3 Hs. clearbody x1 x2. nra.
Qed.

Lemma blend_exact_between_witness :
  ∃ combined, blend (65 # 100) (65 # 100) (65 # 100) (4 # 10) (3 # 10) (3 # 10)
              = Ok combined
              ∧ (65 # 100 <= combined <= 65 # 100)%Q.
Proof.
  apply (blend_exact_between (65 # 100) (65 # 100) (65 # 100)
           (4 # 10) (3 # 10) (3 # 10) (65 # 100) (65 # 100)); by vm_compute.
Defined.

(** ** Sums, products and quotients of binary64 values that are not negative

    [add_spec], [mul_spec] and [div_spec] give the operations of binary64 as
    the functions [SF64add], [SF64mul] and [SF64div] on decoded floats; what
    follows reads their signs, and when a sum is a zero, off those
    functions. *)

Section Sums.
Local Open Scope Z_scope.

Lemma digits2_size m : digits2_pos m = Pos.size m.
Proof. induction m; cbn; congruence. Qed.

Lemma digits2_lower m : 2 ^ (Zpos (digits2_pos m) - 1) <= Zpos m.
Proof.
  rewrite digits2_size. pose proof (Pos.size_le m) as H.
  apply Pos2Z.pos_le_pos in H. rewrite Pos2Z.inj_pow in H.
  change (Z.pos 2) with 2 in H. rewrite (Pos2Z.inj_xO m) in H.
  replace (Zpos (Pos.size m)) with (Zpos (Pos.size m) - 1 + 1) in H by lia.
  rewrite Z.pow_add_r in H by lia. change (2 ^ 1) with 2 in H.
  set (X := 2 ^ _) in *. lia.
Qed.

Lemma shr_1_m mrs : 0 <= shr_m mrs -> shr_m (shr_1 mrs) = shr_m mrs / 2.
Proof.
  destruct mrs as [[|[p|p|]|p] r s]; cbn [shr_m shr_1]; intros H; try lia.
  - reflexivity.
  - apply (Z.div_unique _ _ _ 1); lia.
  - apply (Z.div_unique _ _ _ 0); lia.
  - reflexivity.
Qed.

Lemma iter_shr_1_m p : forall mrs,
  0 <= shr_m mrs ->
  shr_m (SpecFloat.iter_pos shr_1 p mrs) = shr_m mrs / 2 ^ Zpos p.
Proof.
  induction p as [p IH|p IH|]; intros mrs H; cbn [SpecFloat.iter_pos].
  - assert (H1 : 0 <= shr_m (shr_1 mrs))
      by (rewrite shr_1_m by lia; apply Z.div_pos; lia).
    assert (H2 : 0 <= shr_m (SpecFloat.iter_pos shr_1 p (shr_1 mrs)))
      by (rewrite IH by lia; apply Z.div_pos; lia).
    rewrite IH, IH, shr_1_m by lia.
    rewrite !Z.div_div by lia. f_equal.
    rewrite Pos2Z.inj_xI. rewrite <- Z.pow_add_r, <- (Z.pow_1_r 2) at 1 by lia.
    rewrite <- Z.pow_add_r by lia. f_equal. lia.
  - assert (H2 : 0 <= shr_m (SpecFloat.iter_pos shr_1 p mrs))
      by (rewrite IH by lia; apply Z.div_pos; lia).
    rewrite IH, IH by lia. rewrite Z.div_div by lia. f_equal.
    rewrite Pos2Z.inj_xO, <- Z.pow_add_r by lia. f_equal. lia.
  - rewrite shr_1_m by lia. reflexivity.
Qed.


Variables prec emax : Z.
Hypothesis Hprec : 0 < prec.
Local Abbreviation emin := (SpecFloat.emin prec emax).
Local Abbreviation fexp := (SpecFloat.fexp prec emax).

Lemma shr_record_of_loc_m m l : shr_m (shr_record_of_loc m l) = m.
Proof. destruct l as [|[]]; reflexivity. Qed.

(** Shifting a positive mantissa to its canonical exponent leaves it
    positive. *)
Lemma shr_fexp_pos (m : positive) (e : Z) (l : location) :
  emin <= e ->
  exists m', shr_m (fst (shr_fexp prec emax (Zpos m) e l)) = Zpos m'
             /\ emin <= snd (shr_fexp prec emax (Zpos m) e l).
Proof.
  intros He. unfold shr_fexp, shr. cbn [Zdigits2].
  destruct (fexp (Zpos (digits2_pos m) + e) - e) as [|p|p] eqn:En;
    cbn [fst snd]; rewrite ?shr_record_of_loc_m; eauto.
  assert (Hp : Zpos p = Zpos (digits2_pos m) - prec)
    by (unfold SpecFloat.fexp in En; lia).
  rewrite iter_shr_1_m, shr_record_of_loc_m
    by (rewrite shr_record_of_loc_m; lia).
  pose proof (digits2_lower m) as Hm.
  assert (Hle : 2 ^ Zpos p <= Zpos m).
  { eapply Z.le_trans; [|exact Hm]. apply Z.pow_le_mono_r; lia. }
  assert (Hq : 0 < Zpos m / 2 ^ Zpos p).
  { apply Z.div_str_pos. split; [apply Z.pow_pos_nonneg; lia|done]. }
  destruct (Zpos m / 2 ^ Zpos p) as [|q|q]; try lia.
  exists q. split; [done|lia].
Qed.

Lemma round_nearest_even_pos (m : positive) (l : location) :
  exists m', round_nearest_even (Zpos m) l = Zpos m'.
Proof.
  destruct l as [|[]]; unfold round_nearest_even;
    try destruct (Z.even (Zpos m));
    first [by exists m | by exists (m + 1)%positive].
Qed.

Lemma binary_round_aux_pos (s : bool) (m : positive) (e : Z) (l : location) :
  emin <= e ->
  (exists m' e',
     binary_round_aux prec emax s (Zpos m) e l = S754_finite s m' e')
  \/ binary_round_aux prec emax s (Zpos m) e l = S754_infinity s.
Proof.
  intros He. unfold binary_round_aux.
  destruct (shr_fexp_pos m e l He) as (m1 & H1 & He1).
  destruct (shr_fexp prec emax (Zpos m) e l) as [mrs1 e1].
  cbn [fst snd] in *.
  rewrite H1.
  destruct (round_nearest_even_pos m1 (loc_of_shr_record mrs1)) as [m2 ->].
  destruct (shr_fexp_pos m2 e1 loc_Exact He1) as (m3 & H3 & _).
  destruct (shr_fexp prec emax (Zpos m2) e1 loc_Exact) as [mrs3 e3].
  cbn [fst] in H3. rewrite H3.
  destruct (e3 <=? emax - prec); eauto.
Qed.

(** Rounding a non-negative mantissa never changes the sign. *)
Lemma shr_fexp_nonneg (m e : Z) (l : location) :
  0 <= m → 0 <= shr_m (shr_fexp prec emax m e l).1.
Proof.
  intros Hm. unfold shr_fexp, shr.
  destruct (fexp (Zdigits2 m + e) - e) as [|p|p]; cbn [fst];
    rewrite ?iter_shr_1_m, ?shr_record_of_loc_m;
    rewrite ?shr_record_of_loc_m; try done.
  apply Z.div_pos; lia.
Qed.

Lemma round_nearest_even_nonneg (m : Z) (l : location) :
  0 <= m → 0 <= round_nearest_even m l.
Proof.
  intros Hm. destruct l as [|[]]; unfold round_nearest_even;
    try destruct (Z.even m); lia.
Qed.

Lemma binary_round_aux_sign (s : bool) (m e : Z) (l : location) :
  0 <= m →
  match binary_round_aux prec emax s m e l with
  | S754_nan => False
  | S754_zero s' | S754_infinity s' | S754_finite s' _ _ => s' = s
  end.
Proof.
  intros Hm. unfold binary_round_aux.
  pose proof (shr_fexp_nonneg m e l Hm) as H1.
  destruct (shr_fexp prec emax m e l) as [mrs1 e1]. cbn [fst] in H1.
  pose proof (shr_fexp_nonneg _ e1 loc_Exact
                (round_nearest_even_nonneg _ (loc_of_shr_record mrs1) H1))
    as H2.
  destruct (shr_fexp prec emax _ e1 loc_Exact) as [mrs2 e2]. cbn [fst] in H2.
  destruct (shr_m mrs2) as [|q|q]; [done| |lia].
  by destruct (e2 <=? emax - prec).
Qed.

End Sums.

Section SFaddFacts.
Local Open Scope Z_scope.

Lemma valid_binary_emin (s : bool) (m : positive) (e : Z) :
  valid_binary (S754_finite s m e) = true → SpecFloat.emin prec emax <= e.
Proof.
  unfold valid_binary, bounded, canonical_mantissa, SpecFloat.fexp.
  intros [H%Z.eqb_eq _]%andb_true_iff. lia.
Qed.

(** The sum of two non-negative binary64 values is non-negative, and it is
    a zero only when both are. *)
Lemma SF64add_non_negative (a b : spec_float) :
  valid_binary a = true → valid_binary b = true →
  SFleb (S754_zero false) a = true → SFleb (S754_zero false) b = true →
  SFleb (S754_zero false) (SF64add a b) = true
  ∧ (SFeqb (SF64add a b) (S754_zero false) = true →
     SFeqb a (S754_zero false) = true ∧ SFeqb b (S754_zero false) = true).
Proof.
  intros Va Vb Ha Hb.
  destruct a as [sa|[]| |[] ma ea], b as [sb|[]| |[] mb eb]; try done.
  - by destruct sa, sb.
  - apply valid_binary_emin in Va, Vb.
    unfold SF64add, SFadd. cbn [cond_Zopp].
    set (m1 := (shl_align ma ea (Z.min ea eb)).1).
    set (m2 := (shl_align mb eb (Z.min ea eb)).1).
    change (Z.pos m1 + Z.pos m2) with (Z.pos (m1 + m2)).
    unfold binary_normalize, binary_round.
    destruct (shl_align (m1 + m2) _ _) as [mz ez] eqn:Ealign.
    assert (Hez : SpecFloat.emin prec emax <= ez).
    { unfold shl_align in Ealign.
      destruct (_ - _) in Ealign; injection Ealign as <- <-;
        unfold SpecFloat.fexp; lia. }
    destruct (binary_round_aux_pos prec emax eq_refl false mz ez loc_Exact Hez)
      as [(m' & e' & ->)| ->]; by split.
Qed.
End SFaddFacts.

Section Signs.
Local Open Scope Z_scope.
Implicit Types a b : spec_float.

(** [a] is not below zero: a zero, a positive value, or a NaN. *)
Local Abbreviation sf_not_negative a := (SFltb a (S754_zero false) = false).

Lemma binary_round_aux_not_negative (m e : Z) (l : location) :
  0 <= m → sf_not_negative (binary_round_aux prec emax false m e l).
Proof.
  intros Hm. pose proof (binary_round_aux_sign prec emax false m e l Hm) as H.
  by destruct (binary_round_aux prec emax false m e l) as [[]|[]| |[]].
Qed.

Lemma SF64add_not_negative a b :
  sf_not_negative a → sf_not_negative b → sf_not_negative (SF64add a b).
Proof.
  intros Ha Hb.
  destruct a as [sa|[]| |[] ma ea], b as [sb|[]| |[] mb eb]; try done.
  - by destruct sa, sb.
  - unfold SF64add, SFadd. cbn [cond_Zopp].
    set (m1 := (shl_align ma ea (Z.min ea eb)).1).
    set (m2 := (shl_align mb eb (Z.min ea eb)).1).
    change (Z.pos m1 + Z.pos m2) with (Z.pos (m1 + m2)).
    unfold binary_normalize, binary_round.
    destruct (shl_align (m1 + m2) _ _) as [mz ez].
    by apply binary_round_aux_not_negative.
Qed.

Lemma SF64mul_not_negative a b :
  sf_not_negative a → sf_not_negative b → sf_not_negative (SF64mul a b).
Proof.
  intros Ha Hb.
  destruct a as [sa|[]| |[] ma ea], b as [sb|[]| |[] mb eb]; try done.
  unfold SF64mul, SFmul. cbn [xorb].
  by apply binary_round_aux_not_negative.
Qed.

Lemma SF64div_not_negative a b :
  sf_not_negative a → sf_not_negative b → SFeqb b (S754_zero false) = false →
  sf_not_negative (SF64div a b).
Proof.
  intros Ha Hb Hz.
  destruct a as [sa|[]| |[] ma ea], b as [sb|[]| |[] mb eb]; try done.
  unfold SF64div, SFdiv. cbn [xorb].
  destruct (SFdiv_core_binary _ _ _ _ _ _) as [[mz ez] lz] eqn:E.
  apply binary_round_aux_not_negative.
  unfold SFdiv_core_binary in E. cbv zeta in E.
  destruct (Z.div_eucl _ (Z.pos mb)) as [q r] eqn:Ediv.
  injection E as <- _ _.
  match type of Ediv with Z.div_eucl ?n _ = _ =>
    assert (Hn : 0 <= n) by
      (destruct (_ - _ - _); [lia|apply Z.shiftl_nonneg; lia|lia]);
    pose proof (Z_div_mod n (Z.pos mb) eq_refl) as Hdm;
    rewrite Ediv in Hdm
  end.
  nia.
Qed.
End Signs.

Lemma add_non_negative (x y : float) :
  non_negative x → non_negative y →
  non_negative (x + y)
  ∧ (PrimFloat.eqb (x + y) 0 = true →
     PrimFloat.eqb x 0 = true ∧ PrimFloat.eqb y 0 = true).
Proof.
  unfold non_negative, fle.
  rewrite !FloatAxioms.leb_spec, !FloatAxioms.eqb_spec, add_spec.
  change (Prim2SF 0) with (S754_zero false).
  apply SF64add_non_negative; apply Prim2SF_valid.
Qed.

Lemma add_zeros (x y : float) :
  PrimFloat.eqb x 0 = true → PrimFloat.eqb y 0 = true →
  PrimFloat.eqb (x + y) 0 = true.
Proof.
  rewrite !FloatAxioms.eqb_spec, add_spec.
  change (Prim2SF 0) with (S754_zero false).
  destruct (Prim2SF x) as [[]|[]| |[]], (Prim2SF y) as [[]|[]| |[]]; done.
Qed.

Lemma add_not_negative (x y : float) :
  not_negative x → not_negative y → not_negative (x + y).
Proof.
  unfold not_negative, flt. rewrite !FloatAxioms.ltb_spec, add_spec.
  apply SF64add_not_negative.
Qed.

Lemma mul_not_negative (x y : float) :
  not_negative x → not_negative y → not_negative (x * y).
Proof.
  unfold not_negative, flt. rewrite !FloatAxioms.ltb_spec, mul_spec.
  apply SF64mul_not_negative.
Qed.

Lemma div_not_negative (x y : float) :
  not_negative x → not_negative y → PrimFloat.eqb y 0 = false →
  not_negative (x / y).
Proof.
  unfold not_negative, flt.
  rewrite !FloatAxioms.ltb_spec, FloatAxioms.eqb_spec, div_spec.
  apply SF64div_not_negative.
Qed.

(** X11: with weights that are not negative, as the sliders give them,
    normalisation raises [ZeroDivisionError] exactly when the three weights
    are zero; if one of them is not, it returns the three quotients by the
    total. *)
Theorem weights_zero_division_iff (a b c : float) :
  non_negative a → non_negative b → non_negative c →
  (weights a b c = Raise ZeroDivisionError
   ↔ PrimFloat.eqb a 0 = true ∧ PrimFloat.eqb b 0 = true
     ∧ PrimFloat.eqb c 0 = true)
  ∧ (PrimFloat.eqb a 0 = false ∨ PrimFloat.eqb b 0 = false
     ∨ PrimFloat.eqb c 0 = false →
     weights a b c
     = Ok (a / (a + b + c), b / (a + b + c), c / (a + b + c))%float).
Proof.
  intros Ha Hb Hc.
  destruct (add_non_negative a b Ha Hb) as [Hab Hab0].
  destruct (add_non_negative (a + b) c Hab Hc) as [_ Habc0].
  assert (Hzero : PrimFloat.eqb (a + b + c) 0 = true
                  ↔ PrimFloat.eqb a 0 = true ∧ PrimFloat.eqb b 0 = true
                    ∧ PrimFloat.eqb c 0 = true).
  { split.
    - intros [Hab' ?]%Habc0. by destruct (Hab0 Hab').
    - intros (? & ? & ?). by apply add_zeros; [apply add_zeros|]. }
  unfold weights. cbn.
  destruct (PrimFloat.eqb (a + b + c) 0) eqn:Ht.
  - destruct (proj1 Hzero eq_refl) as (-> & -> & ->).
    split; [done|]. by intros [|[|]].
  - split; [|done]. split; [done|]. by intros ?%Hzero.
Qed.

Lemma weights_zero_division_iff_witness :
  (weights 0 0.3 0 = Raise ZeroDivisionError
   ↔ PrimFloat.eqb 0 0 = true ∧ PrimFloat.eqb 0.3 0 = true
     ∧ PrimFloat.eqb 0 0 = true)%float
  ∧ (PrimFloat.eqb 0 0 = false ∨ PrimFloat.eqb 0.3 0 = false
     ∨ PrimFloat.eqb 0 0 = false →
     weights 0 0.3 0
     = Ok (0 / (0 + 0.3 + 0), 0.3 / (0 + 0.3 + 0), 0 / (0 + 0.3 + 0)))%float.
Proof. apply (weights_zero_division_iff 0 0.3 0); by vm_compute. Defined.

(** X12: in binary64, as the code computes, the blend of probabilities and
    weights that are not negative is returned whenever the total does not
    compare equal to zero, and it is never below zero. *)
Theorem blend_never_negative (p1 p2 p3 w1 w2 w3 : float) :
  not_negative p1 → not_negative p2 → not_negative p3 →
  not_negative w1 → not_negative w2 → not_negative w3 →
  PrimFloat.eqb (w1 + w2 + w3) 0 = false →
  ∃ combined, blend p1 p2 p3 w1 w2 w3 = Ok combined ∧ not_negative combined.
Proof.
  intros Hp1 Hp2 Hp3 Hw1 Hw2 Hw3 Ht.
  pose proof (add_not_negative _ _ (add_not_negative _ _ Hw1 Hw2) Hw3) as Hs.
  unfold blend, weights. cbn. rewrite Ht. cbn.
  eexists; split; [reflexivity|].
  repeat apply add_not_negative; apply mul_not_negative; try done;
    by apply div_not_negative.
Qed.

Lemma blend_never_negative_witness :
  ∃ combined, (blend 0.7 0.65 0.55 0.4 0.3 0.3)%float = Ok combined
              ∧ not_negative combined.
Proof.
  apply (blend_never_negative 0.7 0.65 0.55 0.4 0.3 0.3); by vm_compute.
Defined.

(** ** When a run fails *)

(** The total of three values that are not negative is a zero exactly when
    the three of them are. *)
Lemma total_zero_iff (a b c : float) :
  non_negative a → non_negative b → non_negative c →
  PrimFloat.eqb (a + b + c) 0 = true
  ↔ PrimFloat.eqb a 0 = true ∧ PrimFloat.eqb b 0 = true
    ∧ PrimFloat.eqb c 0 = true.
Proof.
  intros Ha Hb Hc.
  destruct (add_non_negative a b Ha Hb) as [Hab Hab0].
  destruct (add_non_negative (a + b) c Hab Hc) as [_ Habc0].
  split.
  - intros [Hab' ?]%Habc0. by destruct (Hab0 Hab').
  - intros (? & ? & ?). by apply add_zeros; [apply add_zeros|].
Qed.

(** X13: with sliders that are not negative, a run ends with an error other
    than the stop exactly when the files are loaded, both team boxes have
    options and the three sliders are at zero; the error is then
    [ZeroDivisionError]. *)
Theorem run_fails_iff_sliders_zero (fs : Files) (ui : Widgets) :
  non_negative (slide_league ui) → non_negative (slide_home ui) →
  non_negative (slide_away ui) →
  ((run fs ui).1 ≠ Ok tt ∧ (run fs ui).1 ≠ Raise StopException
   ↔ (run fs ui).1 = Raise ZeroDivisionError)
  ∧ ((run fs ui).1 = Raise ZeroDivisionError
     ↔ ∃ league_probs home_probs guest_probs historical_data,
         load_data fs
         = Ok (league_probs, home_probs, guest_probs, historical_data)
         ∧ available_home_teams historical_data
             (chosen (sorted (dom league_probs)) (choose_league ui))
             home_probs ≠ []
         ∧ available_away_teams historical_data
             (chosen (sorted (dom league_probs)) (choose_league ui))
             guest_probs ≠ []
         ∧ PrimFloat.eqb (slide_league ui) 0 = true
         ∧ PrimFloat.eqb (slide_home ui) 0 = true
         ∧ PrimFloat.eqb (slide_away ui) 0 = true).
Proof.
  intros Hl Hh Ha.
  pose proof (total_zero_iff _ _ _ Hl Hh Ha) as Hzero.
  destruct (load_data fs) as [[[[lp hp] gp] hist]|e] eqn:Hload.
  - destruct (decide (available_home_teams hist
                        (chosen (sorted (dom lp)) (choose_league ui)) hp = []
                      ∨ available_away_teams hist
                          (chosen (sorted (dom lp)) (choose_league ui)) gp
                        = [])) as [Hempty|Hfull].
    + rewrite (run_no_candidates fs ui lp hp gp hist Hload Hempty).
      split; [split; [by intros [_ ?]|done]|]. split; [done|].
      intros (? & ? & ? & ? & [= <- <- <- <-] & ? & ? & _). tauto.
    + assert (Hhs : available_home_teams hist
                      (chosen (sorted (dom lp)) (choose_league ui)) hp ≠ [])
        by tauto.
      assert (Has : available_away_teams hist
                      (chosen (sorted (dom lp)) (choose_league ui)) gp ≠ [])
        by tauto.
      destruct (PrimFloat.eqb (slide_league ui + slide_home ui + slide_away ui)
                  0) eqn:Ht.
      * rewrite (main_zero_total_raises fs ui lp hp gp hist Hload Hhs Has Ht).
        cbn [fst].
        split; [done|]. split; [|done]. intros _.
        exists lp, hp, gp, hist. split; [done|]. split; [done|].
        split; [done|]. by apply Hzero.
      * pose proof (main_completes fs ui lp hp gp hist Hload Hhs Has Ht)
          as Hrun.
        cbv zeta in Hrun.
        destruct Hrun as (l & h & a & lrow & hrow & arow & ws & advice & Hrun).
        do 10 (destruct Hrun as [_ Hrun]).
        rewrite Hrun. cbn [fst].
        split; [split; [by intros [? _]|done]|]. split; [done|].
        intros (? & ? & ? & ? & _ & _ & _ & Hz). apply Hzero in Hz.
        congruence.
  - rewrite (run_not_loaded fs ui e Hload).
    split; [split; [by intros [_ ?]|done]|]. split; [done|].
    by intros (? & ? & ? & ? & ? & _).
Qed.

Lemma run_fails_iff_sliders_zero_witness :
  (run sample_files
     {| choose_league := 1; choose_home := 1; choose_away := 0;
        slide_league := 0; slide_home := 0; slide_away := 0 |}).1
  = Raise ZeroDivisionError.
Proof.
  apply (run_fails_iff_sliders_zero sample_files
           {| choose_league := 1; choose_home := 1; choose_away := 0;
              slide_league := 0; slide_home := 0; slide_away := 0 |});
    [by vm_compute..|].
  exists sample_league_probs, sample_home_probs, sample_guest_probs,
    sample_history.
  split; [done|]. repeat split; by vm_compute.
Defined.
